(** * The Shakespeare Bot ([app.py]): a shallow embedding and its properties

    The script is a Streamlit page: a sidebar that reads an API key, and an
    "Ask William" page whose submit handler runs transcription, chat
    completion and speech synthesis in sequence over the session's message
    list.  This development embeds

    - the dynamically typed values the three [safe_get_*] helpers probe
      (attributes, subscripts, truthiness, [isinstance]),
    - the helpers themselves, with [try]/[except Exception] as a combinator
      on results,
    - the handlers of the page, as programs of a small monad that threads
      [st.session_state.messages], logs what is shown and which remote calls
      are issued, and distinguishes Python exceptions from Streamlit's
      script-control signals ([st.stop], [st.experimental_rerun]).

    Two places of [app.py] need a reading note.

    - Line 210 ([audio_bytes = safe_get_audio_bytes(audio_response)]) is
      indented four columns less than the lines around it, which leaves the
      [try] of line 203 without its [except]: as written the file does not
      parse.  The embedding reads line 210 at the indentation of line 211,
      inside that [try]; nothing else is touched.
    - Line 200 closes the dictionary literal with [},]: the trailing comma
      makes [voice_map] a one-element tuple holding the dictionary.  This is
      ordinary Python, and it is embedded as it is written. *)

From Stdlib Require Import List String Ascii ZArith Bool Lia.
Import ListNotations.
Open Scope string_scope.

(* ================================================================== *)
(** * Python values *)
(* ================================================================== *)

(** A Python [str] is a [string], one character per code point; the model
    covers the code points below 256.  Captions of the user interface keep
    their UTF-8 bytes and are never inspected. *)

(** Outcome of evaluating an expression: a value, or a raised exception. *)
Inductive result (E A : Type) : Type :=
| Val (a : A)
| Raise (e : E).
Arguments Val {E A} a.
Arguments Raise {E A} e.

(** The classes of [Exception] the program meets.  [APIError] stands for
    whatever the remote client raises. *)
Inductive exc_class : Type :=
| AttributeError | TypeError | KeyError | IndexError | APIError.

(** An exception; [exc_msg] is what [str(e)] (and "{e}" in an f-string)
    gives. *)
Record exn : Type := Exn { exc_cls : exc_class; exc_msg : string }.

(** Keys of dictionaries: the model keeps string and integer keys. *)
Inductive key : Type :=
| KStr (s : string)
| KInt (z : Z).

Definition key_eqb (a b : key) : bool :=
  match a, b with
  | KStr s, KStr t => String.eqb s t
  | KInt x, KInt y => Z.eqb x y
  | _, _ => false
  end.

(** Values.  [PyObject cls attrs] is an instance of a class named [cls] with
    the attributes [attrs] (a pydantic model, a stream wrapper, ...): a plain
    instance, which is truthy and is no subclass of a builtin container.  It
    is subscriptable only when its class defines [__getitem__], which then
    shows among [attrs] as a bound method.  [PyCallable r] is a bound method or function, given
    by the outcome [r] of the one call the program makes on it.  The messages
    of the exceptions raised by the operations below follow CPython; the
    program observes only the one of line 201. *)
#[warnings="-register-all"]
Inductive value : Type :=
| PyNone
| PyBool (b : bool)
| PyInt (z : Z)
| PyStr (s : string)
| PyBytes (b : list Byte.byte)
| PyByteArray (b : list Byte.byte)
| PyList (l : list value)
| PyTuple (l : list value)
| PyDict (d : list (key * value))
| PyObject (cls : string) (attrs : list (string * value))
| PyCallable (r : result exn value).

Definition res : Type -> Type := result exn.

Definition bind {A B} (m : res A) (f : A -> res B) : res B :=
  match m with
  | Val a => f a
  | Raise e => Raise e
  end.

(** [try: body / except Exception as e: handler e]. *)
Definition try_except {A} (body : res A) (handler : exn -> res A) : res A :=
  match body with
  | Val a => Val a
  | Raise e => handler e
  end.

(** The evaluation ends in an exception. *)
Definition raises {A} (r : res A) : Prop := exists e, r = Raise e.

Declare Scope py_scope.
Delimit Scope py_scope with py.
Notation "x <- m ;; k" := (bind m (fun x => k))
  (at level 61, m at next level, right associativity) : py_scope.

(** [type(v).__name__]. *)
Definition type_name (v : value) : string :=
  match v with
  | PyNone => "NoneType"
  | PyBool _ => "bool"
  | PyInt _ => "int"
  | PyStr _ => "str"
  | PyBytes _ => "bytes"
  | PyByteArray _ => "bytearray"
  | PyList _ => "list"
  | PyTuple _ => "tuple"
  | PyDict _ => "dict"
  | PyObject cls _ => cls
  | PyCallable _ => "method"
  end.

(** Truth value of [v] in [if v], [not v], [a or b]. *)
Definition truthy (v : value) : bool :=
  match v with
  | PyNone => false
  | PyBool b => b
  | PyInt z => negb (Z.eqb z 0)
  | PyStr s => negb (String.eqb s "")
  | PyBytes b | PyByteArray b => match b with [] => false | _ => true end
  | PyList l | PyTuple l => match l with [] => false | _ => true end
  | PyDict d => match d with [] => false | _ => true end
  | PyObject _ _ => true
  | PyCallable _ => true
  end.

Fixpoint assoc {K V} (eqb : K -> K -> bool) (k : K) (l : list (K * V)) : option V :=
  match l with
  | [] => None
  | (k', v) :: l' => if eqb k k' then Some v else assoc eqb k l'
  end.

(** [obj.name].  The builtin types have none of the attributes the program
    reads ([choices], [message], [content], [text], [read]); [dict.get] is
    handled by [py_get] below. *)
Definition py_getattr (v : value) (name : string) : res value :=
  match v with
  | PyObject _ attrs =>
      match assoc String.eqb name attrs with
      | Some a => Val a
      | None => Raise (Exn AttributeError
                  ("'" ++ type_name v ++ "' object has no attribute '" ++ name ++ "'"))
      end
  | _ => Raise (Exn AttributeError
           ("'" ++ type_name v ++ "' object has no attribute '" ++ name ++ "'"))
  end.

(** [hasattr(obj, name)]. *)
Definition hasattr (v : value) (name : string) : bool :=
  match py_getattr v name with
  | Val _ => true
  | Raise _ => false
  end.

(** [getattr(obj, name, default)]. *)
Definition getattr_default (v : value) (name : string) (default : value) : value :=
  match py_getattr v name with
  | Val a => a
  | Raise _ => default
  end.

(** [f(...)]: calling a value. *)
Definition py_call (f : value) : res value :=
  match f with
  | PyCallable r => r
  | _ => Raise (Exn TypeError ("'" ++ type_name f ++ "' object is not callable"))
  end.

(** Element [i] of a sequence, negative indices counting from the end. *)
Definition seq_index {A} (l : list A) (i : Z) : option A :=
  let n := Z.of_nat (List.length l) in
  let j := if (i <? 0)%Z then (i + n)%Z else i in
  if ((0 <=? j) && (j <? n))%Z then nth_error l (Z.to_nat j) else None.

(** An index usable on a sequence: [int], and [bool] as its subclass. *)
Definition as_index (k : value) : option Z :=
  match k with
  | PyInt z => Some z
  | PyBool b => Some (if b then 1 else 0)%Z
  | _ => None
  end.

Definition byte_value (b : Byte.byte) : value :=
  PyInt (Z.of_N (Byte.to_N b)).

Section Repr.

(** [repr(v)], left abstract: it depends on class definitions and object
    addresses. *)
Variable py_repr : value -> string.

(** [str(v)]. *)
Definition py_str (v : value) : string :=
  match v with
  | PyStr s => s
  | PyNone => "None"
  | PyBool true => "True"
  | PyBool false => "False"
  | _ => py_repr v
  end.

(** [d[k]] on a dictionary. *)
Definition dict_getitem (d : list (key * value)) (k : value) : res value :=
  let find kk :=
    match assoc key_eqb kk d with
    | Some v => Val v
    | None => Raise (Exn KeyError (py_repr k))
    end in
  match k with
  | PyStr s => find (KStr s)
  | PyInt z => find (KInt z)
  | PyBool b => find (KInt (if b then 1 else 0))
  | PyList _ | PyDict _ | PyByteArray _ =>
      Raise (Exn TypeError ("unhashable type: '" ++ type_name k ++ "'"))
  | _ => Raise (Exn KeyError (py_repr k))
  end.

(** [v[k]]. *)
Definition py_getitem (v k : value) : res value :=
  let by_index {A} (what : string) (range : string) (l : list A) (inj : A -> value) :=
    match as_index k with
    | Some i =>
        match seq_index l i with
        | Some a => Val (inj a)
        | None => Raise (Exn IndexError range)
        end
    | None => Raise (Exn TypeError (what ++ type_name k))
    end in
  match v with
  | PyList l =>
      by_index "list indices must be integers or slices, not "
               "list index out of range" l (fun a => a)
  | PyTuple l =>
      by_index "tuple indices must be integers or slices, not "
               "tuple index out of range" l (fun a => a)
  | PyStr s =>
      match as_index k with
      | Some i =>
          match seq_index (list_ascii_of_string s) i with
          | Some c => Val (PyStr (String c ""))
          | None => Raise (Exn IndexError "string index out of range")
          end
      | None => Raise (Exn TypeError
                  ("string indices must be integers, not '" ++ type_name k ++ "'"))
      end
  | PyBytes b =>
      by_index "byte indices must be integers or slices, not "
               "index out of range" b byte_value
  | PyByteArray b =>
      by_index "bytearray indices must be integers or slices, not "
               "bytearray index out of range" b byte_value
  | PyDict d => dict_getitem d k
  | PyObject _ attrs =>
      match assoc String.eqb "__getitem__" attrs with
      | Some f => py_call f
      | None =>
          Raise (Exn TypeError ("'" ++ type_name v ++ "' object is not subscriptable"))
      end
  | _ => Raise (Exn TypeError ("'" ++ type_name v ++ "' object is not subscriptable"))
  end.

(** [k in d] for a dictionary [d] and a string [k]. *)
Definition dict_contains (d : list (key * value)) (k : string) : bool :=
  match assoc key_eqb (KStr k) d with
  | Some _ => true
  | None => false
  end.

(** [obj.get(k)] for a string [k]: the dictionary method, or whatever
    attribute [get] the object has, called. *)
Definition py_get (v : value) (k : string) : res value :=
  match v with
  | PyDict d =>
      match assoc key_eqb (KStr k) d with
      | Some a => Val a
      | None => Val PyNone
      end
  | _ => (g <- py_getattr v "get" ;; py_call g)%py
  end.

(* ================================================================== *)
(** * The response normalizers (lines 35-79) *)
(* ================================================================== *)

(** The three access paths of [safe_get_assistant_text], each as the
    expression the source writes. *)

(** [response.choices[0].message.content] *)
Definition attribute_path (response : value) : res value :=
  (choices <- py_getattr response "choices" ;;
   first <- py_getitem choices (PyInt 0) ;;
   message <- py_getattr first "message" ;;
   py_getattr message "content")%py.

(** [response.choices[0].message["content"]] *)
Definition message_key_path (response : value) : res value :=
  (choices <- py_getattr response "choices" ;;
   first <- py_getitem choices (PyInt 0) ;;
   message <- py_getattr first "message" ;;
   py_getitem message (PyStr "content"))%py.

(** [response.choices[0]["message"]["content"]] *)
Definition choice_key_path (response : value) : res value :=
  (choices <- py_getattr response "choices" ;;
   first <- py_getitem choices (PyInt 0) ;;
   message <- py_getitem first (PyStr "message") ;;
   py_getitem message (PyStr "content"))%py.

Definition safe_get_assistant_text (response : value) : res value :=
  try_except (attribute_path response) (fun _ =>
    try_except (message_key_path response) (fun _ =>
      try_except (choice_key_path response) (fun _ =>
        Val (PyStr (py_str response))))).

(** The same lines 40-52 with the call [str(response)] of line 52 left
    open: [str_call v] is what [str(v)] does, a string or the exception
    that the [__str__] of the class of [v] raises.  Line 52 stands in the
    last [except] block, outside any [try].  [safe_get_assistant_text] is
    the case of a [str] that returns. *)
Definition safe_get_assistant_text_with (str_call : value -> res value)
    (response : value) : res value :=
  try_except (attribute_path response) (fun _ =>
    try_except (message_key_path response) (fun _ =>
      try_except (choice_key_path response) (fun _ =>
        str_call response))).

(** [getattr(transcription, "text", None) or transcription.get("text")],
    inside [try]/[except Exception: return None]. *)
Definition safe_get_transcription_text (transcription : value) : res value :=
  try_except
    (let a := getattr_default transcription "text" PyNone in
     if truthy a then Val a else py_get transcription "text")
    (fun _ => Val PyNone).

(** The loop [for k in ("audio", "data", "content")] of line 74: the value
    under the first key that is present, if any. *)
Fixpoint first_present (d : list (key * value)) (ks : list string) : option value :=
  match ks with
  | [] => None
  | k :: ks' =>
      if dict_contains d k
      then assoc key_eqb (KStr k) d
      else first_present d ks'
  end.

Definition safe_get_audio_bytes (audio_response : value) : res value :=
  try_except
    (if hasattr audio_response "read" then
       (read <- py_getattr audio_response "read" ;; py_call read)%py
     else if hasattr audio_response "content" then
       py_getattr audio_response "content"
     else
       match audio_response with
       | PyBytes b | PyByteArray b => Val (PyBytes b)
       | PyDict d =>
           match first_present d ["audio"; "data"; "content"] with
           | Some v => Val v
           | None => Val PyNone
           end
       | _ => Val PyNone
       end)
    (fun _ => Val PyNone).

End Repr.

(* ================================================================== *)
(** * Strings: [str.strip], [str.startswith] *)
(* ================================================================== *)

(** [c.isspace()] for the code points below 256: TAB..CR, FS..US, space,
    NEL and the no-break space. *)
Definition is_space (c : ascii) : bool :=
  let n := nat_of_ascii c in
  ((9 <=? n) && (n <=? 13) || (28 <=? n) && (n <=? 32) || (n =? 133) || (n =? 160))%nat.

Fixpoint lstrip_chars (l : list ascii) : list ascii :=
  match l with
  | [] => []
  | c :: l' => if is_space c then lstrip_chars l' else l
  end.

(** [s.strip()]: leading, then trailing white space removed. *)
Definition strip (s : string) : string :=
  string_of_list_ascii
    (rev (lstrip_chars (rev (lstrip_chars (list_ascii_of_string s))))).

(** [s.startswith(p)]. *)
Definition startswith (s p : string) : bool := String.prefix p s.

(** Truth value of a [str]. *)
Definition nonempty (s : string) : bool := negb (String.eqb s "").

(* ================================================================== *)
(** * Session state, widgets, remote service *)
(* ================================================================== *)

Inductive role : Type := system | user | assistant.

Definition role_eqb (a b : role) : bool :=
  match a, b with
  | system, system | user, user | assistant, assistant => true
  | _, _ => false
  end.

(** A message [{"role": ..., "content": ...}]. *)
Record Message : Type := mkMessage { msg_role : role; msg_content : value }.

(** What [st.file_uploader] returns when a file is chosen. *)
Record UploadedFile : Type := mkUpload { file_name : string; file_data : list Byte.byte }.

(** The choices of the sidebar's radio (line 24). *)
Inductive page : Type := Home | AboutMe | AskWilliam.

(** The widget values of one run of the script. *)
Record Widgets : Type := mkWidgets {
  api_key : string;
  options : page;
  user_question : string;
  voice_file : option UploadedFile;
  voice_style : string;
  submit : bool;
  clear : bool
}.

(** The hosted service behind [OpenAI(api_key=...)]: what each of the three
    calls gives for its arguments. *)
Record Client : Type := mkClient {
  transcriptions_create : UploadedFile -> res value;
  chat_completions_create : list Message -> res value;
  speech_create : value -> value -> res value
}.

(** What a run shows, and which remote calls it issues, in order. *)
Inductive event : Type :=
| Title (s : string)
| Write (v : value)
| Markdown (s : string)
| Info (s : string)
| Success (s : string)
| Warning (s : string)
| Error (s : string)
| Audio (v : value)
| TranscriptionCall (model : string) (f : UploadedFile)
| ChatCall (model : string) (history : list Message)
| SpeechCall (model : string) (voice input : value).

(** Streamlit's script-control exceptions; they are not [Exception]s. *)
Inductive control : Type := StopException | RerunException.

Inductive signal : Type :=
| Exception (e : exn)
| Control (c : control).

Record state : Type := mkState { messages : list Message; shown : list event }.

Inductive outcome (A : Type) : Type :=
| Done (a : A)
| Abort (s : signal).
Arguments Done {A} a.
Arguments Abort {A} s.

(** Programs over the session state. *)
Definition M (A : Type) : Type := state -> outcome A * state.

Definition ret {A} (a : A) : M A := fun s => (Done a, s).

Definition mbind {A B} (m : M A) (f : A -> M B) : M B :=
  fun s =>
    match m s with
    | (Done a, s') => f a s'
    | (Abort sg, s') => (Abort sg, s')
    end.

Declare Scope m_scope.
Delimit Scope m_scope with M.
Notation "x <- m ;; k" := (mbind m (fun x => k))
  (at level 61, m at next level, right associativity) : m_scope.
Notation "m ;; k" := (mbind m (fun _ => k))
  (at level 61, right associativity) : m_scope.

Definition raise {A} (e : exn) : M A := fun s => (Abort (Exception e), s).

Definition lift {A} (r : res A) : M A :=
  match r with
  | Val a => ret a
  | Raise e => raise e
  end.

(** [try: body / except Exception as e: handler e]; a control signal passes
    through. *)
Definition try_catch {A} (body : M A) (handler : exn -> M A) : M A :=
  fun s =>
    match body s with
    | (Abort (Exception e), s') => handler e s'
    | r => r
    end.

Definition emit (ev : event) : M unit :=
  fun s => (Done tt, mkState (messages s) (shown s ++ [ev])%list).

Definition get_messages : M (list Message) := fun s => (Done (messages s), s).

Definition set_messages (l : list Message) : M unit :=
  fun s => (Done tt, mkState l (shown s)).

(** [st.stop()] and [st.experimental_rerun()]. *)
Definition st_stop {A} : M A := fun s => (Abort (Control StopException), s).
Definition st_rerun {A} : M A := fun s => (Abort (Control RerunException), s).

(** A remote call: logged, then its outcome. *)
Definition remote (ev : event) (r : res value) : M value :=
  (emit ev ;; lift r)%M.

(** [messages.append(m)] and [messages.insert(0, m)]. *)
Definition append (m : Message) : M unit :=
  (l <- get_messages ;; set_messages (l ++ [m])%list)%M.

Definition insert_front (m : Message) : M unit :=
  (l <- get_messages ;; set_messages (m :: l))%M.

(* ================================================================== *)
(** * The script *)
(* ================================================================== *)

Definition SYSTEM_PROMPT : string := "
You are William Shakespeare, the exceptionally brilliant and literary genius of the English drama.
Answer questions about your plays, sonnets, and characters using wit, sharp humour, confidence,
and deep literary insight. Focus strictly on Shakespearean literature.
".

(** Lines 16-22: the sidebar's report on the key. *)
Definition sidebar (api_key : string) : M unit :=
  if nonempty api_key && startswith api_key "sk-" && (40 <? String.length api_key)%nat
  then emit (Success "API key looks good!")
  else if nonempty api_key
  then emit (Warning "Invalid API key format.")
  else emit (Info "Enter your API key to begin.").

(** Line 132: the test that lets a submission through. *)
Definition key_accepted (api_key : string) : bool :=
  negb (negb (nonempty api_key) || negb (startswith api_key "sk-")).

(** Lines 194-200.  The literal ends in a comma: a tuple of one dictionary. *)
Definition voice_map : value :=
  PyTuple
    [PyDict [(KStr "Dramatic Stage Voice", PyStr "alloy");
             (KStr "Warm, Noble Bard", PyStr "verse");
             (KStr "Aged Shakespeare", PyStr "sage");
             (KStr "Playful Jester", PyStr "spark");
             (KStr "Royal Court Voice", PyStr "duet");
             (KStr "Whispered Bard", PyStr "whisper")]].

(** Lines 104-111: the options of the select box. *)
Definition voice_styles : list string :=
  ["Dramatic Stage Voice"; "Warm, Noble Bard"; "Aged Shakespeare";
   "Playful Jester"; "Royal Court Voice"; "Whispered Bard"].

Definition is_system (m : Message) : bool := role_eqb (msg_role m) system.

(** Lines 138-139. *)
Definition ensure_system_prompt : M unit :=
  (l <- get_messages ;;
   if negb (existsb is_system l)
   then insert_front (mkMessage system (PyStr SYSTEM_PROMPT))
   else ret tt)%M.

(** Lines 127-129.  Line 129 is read as Streamlit's rerun signal; on a
    Streamlit that no longer has [experimental_rerun] the line raises
    [AttributeError] instead.  Either way the list is emptied first and the
    run ends here. *)
Definition on_clear : M unit :=
  (set_messages [] ;; st_rerun)%M.

Section Script.

Variable py_repr : value -> string.
Variable client : Client.

(** Lines 144-168: the transcription block; gives the new [final_question].
    Writing and removing the temporary file leave no trace in the model. *)
Definition transcribe (final_question : value) (f : UploadedFile) : M value :=
  (emit (Info "Transcribing audio…") ;;
   try_catch
     (transcription <- remote (TranscriptionCall "whisper-1" f)
                              (transcriptions_create client f) ;;
      trans_text <- lift (safe_get_transcription_text transcription) ;;
      if truthy trans_text then
        emit (Markdown ("**Transcribed:** " ++ py_str py_repr trans_text)) ;;
        ret trans_text
      else
        emit (Warning "Could not extract transcription text; using typed input if available.") ;;
        ret final_question)
     (fun e =>
        emit (Error ("Transcription failed: " ++ exc_msg e)) ;;
        ret final_question))%M.

(** Lines 142-168: the question that goes on. *)
Definition determine_final_question (w : Widgets) : M value :=
  let final_question := PyStr (strip (user_question w)) in
  match voice_file w with
  | Some f => transcribe final_question f
  | None => ret final_question
  end.

(** Lines 203-216: the speech block. *)
Definition speak (chosen_voice assistant_reply : value) : M unit :=
  try_catch
    (audio_response <- remote (SpeechCall "gpt-4o-mini-tts" chosen_voice assistant_reply)
                              (speech_create client chosen_voice assistant_reply) ;;
     audio_bytes <- lift (safe_get_audio_bytes audio_response) ;;
     if truthy audio_bytes
     then emit (Audio audio_bytes)
     else emit (Warning "Audio generation returned no bytes; reply shown as text only."))%M
    (fun e => emit (Warning ("TTS generation failed: " ++ exc_msg e))).

(** Lines 178-219: the chat block. *)
Definition converse (w : Widgets) : M unit :=
  try_catch
    (history <- get_messages ;;
     response <- remote (ChatCall "gpt-4o-mini" history)
                        (chat_completions_create client history) ;;
     assistant_reply <- lift (safe_get_assistant_text py_repr response) ;;
     append (mkMessage assistant assistant_reply) ;;
     emit (Success "Here’s what The Bard says:") ;;
     emit (Write assistant_reply) ;;
     chosen_voice <- lift (py_getitem py_repr voice_map (PyStr (voice_style w))) ;;
     speak chosen_voice assistant_reply)%M
    (fun e => emit (Error ("OpenAI request failed: " ++ exc_msg e))).

(** Lines 131-219: the submit handler. *)
Definition on_submit (w : Widgets) : M unit :=
  if negb (nonempty (api_key w)) || negb (startswith (api_key w) "sk-")
  then emit (Warning "Enter a valid OpenAI API key in the sidebar.")
  else
    (ensure_system_prompt ;;
     final_question <- determine_final_question w ;;
     if negb (truthy final_question) then
       emit (Warning "Provide a typed question or upload a voice file.") ;;
       st_stop
     else
       append (mkMessage user final_question) ;;
       converse w)%M.

(** Lines 113-121: the conversation so far. *)
Fixpoint render (l : list Message) : M unit :=
  match l with
  | [] => ret tt
  | m :: l' =>
      ((match msg_role m with
        | user => emit (Markdown ("**You:** " ++ py_str py_repr (msg_content m)))
        | assistant =>
            emit (Markdown ("**William Shakespeare:** " ++ py_str py_repr (msg_content m)))
        | system => ret tt
        end) ;;
       render l')%M
  end.

(** Lines 113-121, with the test of line 113. *)
Definition show_conversation : M unit :=
  (l <- get_messages ;;
   match l with
   | [] => ret tt
   | _ => emit (Markdown "### Conversation") ;; render l
   end)%M.

(** Lines 91-219: the "Ask William" page. *)
Definition ask_william (w : Widgets) : M unit :=
  (emit (Title "Ask William Shakespeare!") ;;
   emit (Write (PyStr "You can type a question or upload a voice recording (wav/mp3/m4a).")) ;;
   emit (Markdown "**Or upload a voice question**") ;;
   show_conversation ;;
   (if clear w then on_clear else ret tt) ;;
   (if submit w then on_submit w else ret tt))%M.

(** One run of the script: the sidebar, the selected page, and (when the
    run is not cut short) the footer. *)
Definition script (w : Widgets) : M unit :=
  (sidebar (api_key w) ;;
   match options w with
   | Home =>
       emit (Title "The Shakespeare Bot") ;;
       emit (Markdown
         "<p style='color:red; font-weight:bold;'>Enter your API token to use the bot.</p>") ;;
       emit (Write (PyStr
         "Ask William Shakespeare anything about his plays and sonnets using text or voice."))
   | AboutMe =>
       emit (Title "About William Shakespeare") ;;
       emit (Write (PyStr
         "William Shakespeare (1564–1616) — playwright, poet, and actor. Ask about plays, sonnets, themes and characters."))
   | AskWilliam => ask_william w
   end ;;
   emit (Markdown "---") ;;
   emit (Markdown
     "Shakespeare Bot — voice and text. Keep questions focused on Shakespeare's works."))%M.

End Script.

(** The messages a handler leaves, and what it showed, from given messages. *)
Definition run {A} (m : M A) (l : list Message) : outcome A * state :=
  m (mkState l []).

Definition messages_after {A} (m : M A) (l : list Message) : list Message :=
  messages (snd (run m l)).

Definition shown_by {A} (m : M A) (l : list Message) : list event :=
  shown (snd (run m l)).

(** A session: the script is run once per interaction, each with its widget
    values and the service as it answers then; the message list starts
    empty (lines 32-33) and is carried from run to run. *)
Definition interaction : Type := (Widgets * Client)%type.

Definition step (py_repr : value -> string) (l : list Message) (i : interaction)
  : list Message :=
  messages_after (script py_repr (snd i) (fst i)) l.

(** The message lists of a session: the initial one, then the one after
    each interaction. *)
Fixpoint session_states (py_repr : value -> string) (l : list Message)
    (todo : list interaction) : list (list Message) :=
  match todo with
  | [] => [l]
  | i :: todo' => l :: session_states py_repr (step py_repr l i) todo'
  end.

(** In a list of successive states, the number of transitions in which a
    system message appears where there was none. *)
Fixpoint system_insertions (states : list (list Message)) : nat :=
  match states with
  | before :: ((after :: _) as rest) =>
      (if negb (existsb is_system before) && existsb is_system after then 1 else 0)
      + system_insertions rest
  | _ => 0
  end.

(** A transcription response whose text is there and empty: a dictionary
    with the empty string under [text], or an object whose attribute [text]
    is the empty string (and that has no [get] of its own to ask next). *)
Definition empty_text_response (t : value) : bool :=
  match t with
  | PyDict d =>
      match assoc key_eqb (KStr "text") d with
      | Some (PyStr EmptyString) => true
      | _ => false
      end
  | PyObject _ attrs =>
      match assoc String.eqb "text" attrs, assoc String.eqb "get" attrs with
      | Some (PyStr EmptyString), None => true
      | _, _ => false
      end
  | _ => false
  end.

(** Log queries: is an event a chat call, a speech call? *)
Definition is_chat_call (ev : event) : bool :=
  match ev with ChatCall _ _ => true | _ => false end.

Definition is_speech_call (ev : event) : bool :=
  match ev with SpeechCall _ _ _ => true | _ => false end.

(** An event that is neither: shown text, or the transcription call. *)
Definition before_chat (ev : event) : bool :=
  negb (is_chat_call ev) && negb (is_speech_call ev).

(** The number of system messages of a state. *)
Definition count_system (l : list Message) : nat :=
  List.length (filter is_system l).

(** The invariant of the message list: at most one system message, and a
    system message, when there is one, comes first. *)
Definition conversation_invariant (l : list Message) : Prop :=
  count_system l <= 1 /\
  (existsb is_system l = true ->
   exists m rest, l = m :: rest /\ is_system m = true).

(** The same, as a test: no system message after the first position. *)
Definition system_first (l : list Message) : bool :=
  match l with
  | [] => true
  | _ :: rest => negb (existsb is_system rest)
  end.

(* ================================================================== *)
(** * Sample values, services and submissions *)
(* ================================================================== *)

(** A stand-in for [repr]. *)
Definition plain_repr (v : value) : string := "<" ++ type_name v ++ ">".

(** A chat completion as the client library returns it. *)
Definition chat_completion (text : string) : value :=
  PyObject "ChatCompletion"
    [("choices",
      PyList [PyObject "Choice"
                [("message",
                  PyObject "ChatCompletionMessage" [("content", PyStr text)])]])].

(** The same reply with a dictionary as message, and as choice. *)
Definition chat_completion_message_dict (text : string) : value :=
  PyObject "ChatCompletion"
    [("choices",
      PyList [PyObject "Choice" [("message", PyDict [(KStr "content", PyStr text)])]])].

Definition chat_completion_choice_dict (text : string) : value :=
  PyObject "ChatCompletion"
    [("choices",
      PyList [PyDict [(KStr "message", PyDict [(KStr "content", PyStr text)])]])].

Definition transcription (text : string) : value :=
  PyObject "Transcription" [("text", PyStr text)].

(** A message that answers both [message.content] and [message["content"]],
    with different texts. *)
Definition two_faced_message (by_attribute by_key : string) : value :=
  PyObject "Message"
    [("content", PyStr by_attribute);
     ("__getitem__", PyCallable (Val (PyStr by_key)))].

(** A message that answers only [message["content"]], in a choice that
    answers both [choice.message] and [choice["message"]]. *)
Definition two_faced_choice (by_message_key by_choice_key : string) : value :=
  PyObject "Choice"
    [("message",
      PyObject "Message" [("__getitem__", PyCallable (Val (PyStr by_message_key)))]);
     ("__getitem__",
      PyCallable (Val (PyDict [(KStr "content", PyStr by_choice_key)])))].

Definition completion_of (choice : value) : value :=
  PyObject "ChatCompletion" [("choices", PyList [choice])].

(** A response with no attribute at all, of a class whose [__str__] returns
    [None]: [str] of it raises. *)
Definition opaque_response : value := PyObject "Opaque" [].

Definition str_of_opaque (v : value) : res value :=
  match v with
  | PyObject _ [] =>
      Raise (Exn TypeError "__str__ returned non-string (type NoneType)")
  | _ => Val (PyStr (plain_repr v))
  end.

Definition api_error (text : string) : exn := Exn APIError text.

Definition recording : UploadedFile := mkUpload "question.wav" [].

(** A service whose three calls all return. *)
Definition answering_client : Client :=
  mkClient (fun _ => Val (transcription "Who is Hamlet?"))
           (fun _ => Val (chat_completion "The Prince of Denmark."))
           (fun _ _ => Val (PyBytes [Byte.x78])).

(** A service whose speech call raises. *)
Definition mute_client : Client :=
  mkClient (fun _ => Val (transcription "Who is Hamlet?"))
           (fun _ => Val (chat_completion "The Prince of Denmark."))
           (fun _ _ => Raise (api_error "speech unavailable")).

(** A service whose transcription call raises. *)
Definition deaf_client : Client :=
  mkClient (fun _ => Raise (api_error "unsupported audio"))
           (fun _ => Val (chat_completion "The Prince of Denmark."))
           (fun _ _ => Val (PyBytes [Byte.x78])).

(** A service whose chat call raises. *)
Definition silent_client : Client :=
  mkClient (fun _ => Val (transcription "Who is Hamlet?"))
           (fun _ => Raise (api_error "Connection error."))
           (fun _ _ => Val (PyBytes [Byte.x78])).

(** A service that transcribes to a dictionary with an empty text. *)
Definition blank_client : Client :=
  mkClient (fun _ => Val (PyDict [(KStr "text", PyStr "")]))
           (fun _ => Val (chat_completion "The Prince of Denmark."))
           (fun _ _ => Val (PyBytes [Byte.x78])).

Definition submission (key typed : string) (audio : option UploadedFile) : Widgets :=
  mkWidgets key AskWilliam typed audio "Dramatic Stage Voice" true false.

Definition clearing : Widgets :=
  mkWidgets "sk-test" AskWilliam "" None "Dramatic Stage Voice" false true.

(* ================================================================== *)
(** * More log queries *)
(* ================================================================== *)

Definition is_transcription_call (ev : event) : bool :=
  match ev with TranscriptionCall _ _ => true | _ => false end.

Definition is_audio (ev : event) : bool :=
  match ev with Audio _ => true | _ => false end.

(** A call to the hosted service, of any of the three kinds. *)
Definition is_remote_call (ev : event) : bool :=
  is_transcription_call ev || is_chat_call ev || is_speech_call ev.

(** How many events of a log pass a test. *)
Definition count_events (p : event -> bool) (evs : list event) : nat :=
  List.length (filter p evs).

(** The line of lines 119 and 121 for a user or an assistant message. *)
Definition conversation_line (py_repr : value -> string) (m : Message) : event :=
  Markdown ((match msg_role m with
             | user => "**You:** "
             | _ => "**William Shakespeare:** "
             end) ++ py_str py_repr (msg_content m)).

(** A string of white space only (the empty string included). *)
Definition all_space (s : string) : bool :=
  forallb is_space (list_ascii_of_string s).

(* ================================================================== *)
(** * Properties of the normalizers *)
(* ================================================================== *)

Section NormalizerProperties.

Variable py_repr : value -> string.

(** A handler that returns makes the whole statement return. *)
Lemma try_except_total {A} (body : res A) (h : exn -> res A) :
  (forall e, exists a, h e = Val a) -> exists a, try_except body h = Val a.
Proof.
  intros Hh. destruct body as [a|e]; simpl.
  - now exists a.
  - apply Hh.
Qed.

(** C5, amended.  [safe_get_assistant_text], with [str(response)] of line 52
    doing whatever [str_call] says.  On the response itself, with
    [choices = response.choices] and [first = choices[0]]:
    - when [first.message.content] evaluates, its value is returned, whatever
      the key accesses would give;
    - else, when [first.message] evaluates and its ["content"] item does,
      that item is returned, whatever [first["message"]] would give;
    - else, when [first["message"]["content"]] evaluates, its value is
      returned;
    - else (no [choices], no [choices[0]], or none of the three reaches a
      content) the outcome is that of [str(response)]: its string, or the
      exception it raises.
    So the function raises only when all three accesses fail and
    [str(response)] itself raises.  The function the handlers call is the
    case of a [str] that returns. *)
Theorem safe_get_assistant_text_order (str_call : value -> res value)
    (response : value) :
  (forall choices first message content,
     py_getattr response "choices" = Val choices ->
     py_getitem py_repr choices (PyInt 0) = Val first ->
     py_getattr first "message" = Val message ->
     py_getattr message "content" = Val content ->
     safe_get_assistant_text_with py_repr str_call response = Val content) /\
  (forall choices first message content,
     py_getattr response "choices" = Val choices ->
     py_getitem py_repr choices (PyInt 0) = Val first ->
     py_getattr first "message" = Val message ->
     raises (py_getattr message "content") ->
     py_getitem py_repr message (PyStr "content") = Val content ->
     safe_get_assistant_text_with py_repr str_call response = Val content) /\
  (forall choices first message content,
     py_getattr response "choices" = Val choices ->
     py_getitem py_repr choices (PyInt 0) = Val first ->
     (raises (py_getattr first "message") \/
      exists m, py_getattr first "message" = Val m /\
                raises (py_getattr m "content") /\
                raises (py_getitem py_repr m (PyStr "content"))) ->
     py_getitem py_repr first (PyStr "message") = Val message ->
     py_getitem py_repr message (PyStr "content") = Val content ->
     safe_get_assistant_text_with py_repr str_call response = Val content) /\
  (raises (py_getattr response "choices") \/
   (exists choices,
      py_getattr response "choices" = Val choices /\
      raises (py_getitem py_repr choices (PyInt 0))) \/
   (exists choices first,
      py_getattr response "choices" = Val choices /\
      py_getitem py_repr choices (PyInt 0) = Val first /\
      (raises (py_getattr first "message") \/
       exists m, py_getattr first "message" = Val m /\
                 raises (py_getattr m "content") /\
                 raises (py_getitem py_repr m (PyStr "content"))) /\
      (raises (py_getitem py_repr first (PyStr "message")) \/
       exists m, py_getitem py_repr first (PyStr "message") = Val m /\
                 raises (py_getitem py_repr m (PyStr "content")))) ->
   safe_get_assistant_text_with py_repr str_call response = str_call response) /\
  (forall e,
     safe_get_assistant_text_with py_repr str_call response = Raise e ->
     str_call response = Raise e) /\
  safe_get_assistant_text py_repr response
  = safe_get_assistant_text_with py_repr
      (fun v => Val (PyStr (py_str py_repr v))) response.
Proof.
  unfold safe_get_assistant_text_with, attribute_path, message_key_path,
    choice_key_path.
  split; [| split; [| split; [| split; [| split]]]].
  - intros choices first message content Hc Hf Hm Ha.
    rewrite Hc. cbn [bind]. rewrite Hf. cbn [bind]. rewrite Hm. cbn [bind].
    now rewrite Ha.
  - intros choices first message content Hc Hf Hm [e Ha] Hk.
    rewrite Hc. cbn [bind]. rewrite Hf. cbn [bind]. rewrite Hm. cbn [bind].
    now rewrite Ha, Hk.
  - intros choices first message content Hc Hf Hab Hm Hk.
    rewrite Hc. cbn [bind]. rewrite Hf. cbn [bind]. rewrite Hm. cbn [bind].
    rewrite Hk.
    destruct Hab as [[e He] | (m & Hm' & [e1 H1] & [e2 H2])].
    + now rewrite He.
    + rewrite Hm'. cbn [bind]. now rewrite H1, H2.
  - intros [[e He] | [(choices & Hc & [e He]) | (choices & first & Hc & Hf & Hab & Hcc)]].
    + now rewrite He.
    + rewrite Hc. cbn [bind]. now rewrite He.
    + rewrite Hc. cbn [bind]. rewrite Hf. cbn [bind].
      assert (C : (message <- py_getitem py_repr first (PyStr "message") ;;
                   py_getitem py_repr message (PyStr "content"))%py
                  = Raise
                      match py_getitem py_repr first (PyStr "message") with
                      | Val m =>
                          match py_getitem py_repr m (PyStr "content") with
                          | Raise e => e
                          | Val _ => Exn TypeError ""
                          end
                      | Raise e => e
                      end).
      { destruct Hcc as [[e He] | (m & Hm & [e He])].
        - now rewrite He.
        - rewrite Hm. cbn [bind]. now rewrite He. }
      rewrite C.
      destruct Hab as [[e He] | (m & Hm' & [e1 H1] & [e2 H2])].
      * now rewrite He.
      * rewrite Hm'. cbn [bind]. now rewrite H1, H2.
  - intros e. unfold try_except.
    destruct (choices <- py_getattr response "choices";;
              first <- py_getitem py_repr choices (PyInt 0);;
              message <- py_getattr first "message";;
              py_getattr message "content")%py; [discriminate|].
    destruct (choices <- py_getattr response "choices";;
              first <- py_getitem py_repr choices (PyInt 0);;
              message <- py_getattr first "message";;
              py_getitem py_repr message (PyStr "content"))%py; [discriminate|].
    destruct (choices <- py_getattr response "choices";;
              first <- py_getitem py_repr choices (PyInt 0);;
              message <- py_getitem py_repr first (PyStr "message");;
              py_getitem py_repr message (PyStr "content"))%py; [discriminate|].
    trivial.
  - reflexivity.
Qed.

Lemma safe_get_assistant_text_total (response : value) :
  exists v, safe_get_assistant_text py_repr response = Val v.
Proof.
  unfold safe_get_assistant_text.
  repeat (apply try_except_total; intros _). eauto.
Qed.

Lemma hasattr_val (v a : value) (name : string) :
  py_getattr v name = Val a -> hasattr v name = true.
Proof. unfold hasattr. now intros ->. Qed.

(** C6.  [safe_get_audio_bytes] returns for every response, and: what the
    call of its [read] attribute returns, when it has one; else its [content]
    attribute, when it has one; else the same bytes, when it is a [bytes] or
    a [bytearray]; else, for a dictionary, the value under the first of the
    keys [audio], [data], [content] that is present; and [None] when none of
    these applies.  (A [read] that raises is swallowed and gives [None].) *)
Theorem safe_get_audio_bytes_cases (audio_response : value) :
  (exists v, safe_get_audio_bytes audio_response = Val v) /\
  (forall read v, py_getattr audio_response "read" = Val read ->
     py_call read = Val v ->
     safe_get_audio_bytes audio_response = Val v) /\
  (forall read e, py_getattr audio_response "read" = Val read ->
     py_call read = Raise e ->
     safe_get_audio_bytes audio_response = Val PyNone) /\
  (forall c, hasattr audio_response "read" = false ->
     py_getattr audio_response "content" = Val c ->
     safe_get_audio_bytes audio_response = Val c) /\
  (forall b, audio_response = PyBytes b \/ audio_response = PyByteArray b ->
     safe_get_audio_bytes audio_response = Val (PyBytes b)) /\
  (forall d, audio_response = PyDict d ->
     (forall v, assoc key_eqb (KStr "audio") d = Some v ->
        safe_get_audio_bytes audio_response = Val v) /\
     (forall v, assoc key_eqb (KStr "audio") d = None ->
        assoc key_eqb (KStr "data") d = Some v ->
        safe_get_audio_bytes audio_response = Val v) /\
     (forall v, assoc key_eqb (KStr "audio") d = None ->
        assoc key_eqb (KStr "data") d = None ->
        assoc key_eqb (KStr "content") d = Some v ->
        safe_get_audio_bytes audio_response = Val v) /\
     (assoc key_eqb (KStr "audio") d = None ->
      assoc key_eqb (KStr "data") d = None ->
      assoc key_eqb (KStr "content") d = None ->
      safe_get_audio_bytes audio_response = Val PyNone)) /\
  (hasattr audio_response "read" = false ->
   hasattr audio_response "content" = false ->
   (forall b, audio_response <> PyBytes b) ->
   (forall b, audio_response <> PyByteArray b) ->
   (forall d, audio_response <> PyDict d) ->
   safe_get_audio_bytes audio_response = Val PyNone).
Proof.
  unfold safe_get_audio_bytes. repeat split.
  - apply try_except_total. intros _. eauto.
  - intros read v Hr Hc. rewrite (hasattr_val _ _ _ Hr), Hr. simpl. now rewrite Hc.
  - intros read e Hr Hc. rewrite (hasattr_val _ _ _ Hr), Hr. simpl. now rewrite Hc.
  - intros c Hn Hc. rewrite Hn, (hasattr_val _ _ _ Hc), Hc. reflexivity.
  - intros b [-> | ->]; reflexivity.
  - intros v Ha. subst. simpl. unfold dict_contains. now rewrite Ha.
  - intros v Ha Hd. subst. simpl. unfold dict_contains. now rewrite Ha, Hd.
  - intros v Ha Hd Hc. subst. simpl. unfold dict_contains. now rewrite Ha, Hd, Hc.
  - intros Ha Hd Hc. subst. simpl. unfold dict_contains. now rewrite Ha, Hd, Hc.
  - intros Hr Hc Hb Hba Hd. rewrite Hr, Hc.
    destruct audio_response; try reflexivity.
    + now elim (Hb b).
    + now elim (Hba b).
    + now elim (Hd d).
Qed.

Lemma safe_get_audio_bytes_total (audio_response : value) :
  exists v, safe_get_audio_bytes audio_response = Val v.
Proof.
  unfold safe_get_audio_bytes. apply try_except_total. intros _. eauto.
Qed.

Lemma safe_get_transcription_text_total (transcription : value) :
  exists v, safe_get_transcription_text transcription = Val v.
Proof.
  unfold safe_get_transcription_text. apply try_except_total. intros _. eauto.
Qed.

End NormalizerProperties.

(* ================================================================== *)
(** * Runs of the handlers *)
(* ================================================================== *)

Ltac run_m :=
  cbv beta iota delta
    [mbind ret raise lift try_catch emit get_messages set_messages remote
     append insert_front st_stop st_rerun messages shown].

Section HandlerProperties.

Variable py_repr : value -> string.
Variable client : Client.

Local Abbreviation system_message := (mkMessage system (PyStr SYSTEM_PROMPT)).
Local Abbreviation with_system l :=
  (if existsb is_system l%list then l%list else (system_message :: l)%list).
Local Abbreviation voice_error :=
  "OpenAI request failed: tuple indices must be integers or slices, not str".

Lemma ensure_system_prompt_run (l : list Message) (sh : list event) :
  ensure_system_prompt (mkState l sh) = (Done tt, mkState (with_system l) sh).
Proof.
  unfold ensure_system_prompt. run_m. now destruct (existsb is_system l).
Qed.

(** Indexing the tuple with a label raises, whatever the label. *)
Lemma voice_map_subscript (label : string) :
  py_getitem py_repr voice_map (PyStr label)
  = Raise (Exn TypeError "tuple indices must be integers or slices, not str").
Proof. reflexivity. Qed.

Lemma transcribe_raise fq f e l sh :
  transcriptions_create client f = Raise e ->
  transcribe py_repr client fq f (mkState l sh)
  = (Done fq, mkState l (sh ++ [Info "Transcribing audio…";
                                TranscriptionCall "whisper-1" f;
                                Error ("Transcription failed: " ++ exc_msg e)])%list).
Proof.
  intros H. unfold transcribe. run_m. rewrite H.
  now rewrite <- !app_assoc.
Qed.

Lemma transcribe_text fq f t v l sh :
  transcriptions_create client f = Val t ->
  safe_get_transcription_text t = Val v ->
  truthy v = true ->
  transcribe py_repr client fq f (mkState l sh)
  = (Done v, mkState l (sh ++ [Info "Transcribing audio…";
                               TranscriptionCall "whisper-1" f;
                               Markdown ("**Transcribed:** " ++ py_str py_repr v)])%list).
Proof.
  intros H Hv Ht. unfold transcribe. run_m. rewrite H, Hv, Ht.
  now rewrite <- !app_assoc.
Qed.

Lemma transcribe_no_text fq f t v l sh :
  transcriptions_create client f = Val t ->
  safe_get_transcription_text t = Val v ->
  truthy v = false ->
  transcribe py_repr client fq f (mkState l sh)
  = (Done fq, mkState l (sh ++ [Info "Transcribing audio…";
         TranscriptionCall "whisper-1" f;
         Warning "Could not extract transcription text; using typed input if available."])%list).
Proof.
  intros H Hv Ht. unfold transcribe. run_m. rewrite H, Hv, Ht.
  now rewrite <- !app_assoc.
Qed.

(** The question is settled without touching the messages and before any
    chat or speech call. *)
Lemma determine_final_question_shape w l sh :
  exists q evs,
    determine_final_question py_repr client w (mkState l sh)
    = (Done q, mkState l (sh ++ evs)%list) /\
    forallb before_chat evs = true.
Proof.
  unfold determine_final_question.
  destruct (voice_file w) as [f|].
  - destruct (transcriptions_create client f) as [t|e] eqn:Ht.
    + destruct (safe_get_transcription_text_total t) as [v Hv].
      destruct (truthy v) eqn:Tv.
      * eexists _, _. split; [ now apply (transcribe_text _ _ t v) | reflexivity ].
      * eexists _, _. split; [ now apply (transcribe_no_text _ _ t v) | reflexivity ].
    + eexists _, _. split; [ now apply (transcribe_raise _ _ e) | reflexivity ].
  - exists (PyStr (strip (user_question w))), []. split; [| reflexivity].
    unfold ret. now rewrite app_nil_r.
Qed.

Lemma converse_raise w e l sh :
  chat_completions_create client l = Raise e ->
  converse py_repr client w (mkState l sh)
  = (Done tt, mkState l (sh ++ [ChatCall "gpt-4o-mini" l;
                                Error ("OpenAI request failed: " ++ exc_msg e)])%list).
Proof.
  intros H. unfold converse. run_m. rewrite H.
  now rewrite <- !app_assoc.
Qed.

Lemma converse_reply w r a l sh :
  chat_completions_create client l = Val r ->
  safe_get_assistant_text py_repr r = Val a ->
  converse py_repr client w (mkState l sh)
  = (Done tt, mkState (l ++ [mkMessage assistant a])
                      (sh ++ [ChatCall "gpt-4o-mini" l;
                              Success "Here’s what The Bard says:";
                              Write a;
                              Error voice_error])%list).
Proof.
  intros H Ha. unfold converse. run_m. rewrite H, Ha.
  rewrite voice_map_subscript.
  now rewrite <- !app_assoc.
Qed.

Lemma key_accepted_gate k :
  negb (nonempty k) || negb (startswith k "sk-") = negb (key_accepted k).
Proof. unfold key_accepted. now rewrite negb_involutive. Qed.

Lemma on_submit_rejected w l sh :
  key_accepted (api_key w) = false ->
  on_submit py_repr client w (mkState l sh)
  = (Done tt, mkState l (sh ++ [Warning "Enter a valid OpenAI API key in the sidebar."])%list).
Proof.
  intros H. unfold on_submit. rewrite key_accepted_gate, H. reflexivity.
Qed.

(** An accepted submission, once the question [q] is settled. *)
Lemma on_submit_accepted w l sh q s' :
  key_accepted (api_key w) = true ->
  determine_final_question py_repr client w (mkState (with_system l) sh) = (Done q, s') ->
  on_submit py_repr client w (mkState l sh)
  = if truthy q
    then converse py_repr client w
           (mkState (messages s' ++ [mkMessage user q])%list (shown s'))
    else (Abort (Control StopException),
          mkState (messages s')
            (shown s' ++ [Warning "Provide a typed question or upload a voice file."])%list).
Proof.
  intros H Hq. unfold on_submit. rewrite key_accepted_gate, H.
  cbv beta iota delta [negb mbind].
  rewrite ensure_system_prompt_run, Hq.
  destruct (truthy q); reflexivity.
Qed.

(** Every run of the submit handler, from a fresh log, is one of four. *)
Lemma on_submit_cases w l :
  (key_accepted (api_key w) = false /\
   run (on_submit py_repr client w) l
   = (Done tt, mkState l [Warning "Enter a valid OpenAI API key in the sidebar."]))
  \/
  (key_accepted (api_key w) = true /\
   exists q evs,
     determine_final_question py_repr client w (mkState (with_system l) [])
     = (Done q, mkState (with_system l) evs) /\
     forallb before_chat evs = true /\
     ((truthy q = false /\
       run (on_submit py_repr client w) l
       = (Abort (Control StopException),
          mkState (with_system l)
            (evs ++ [Warning "Provide a typed question or upload a voice file."])%list))
      \/
      (truthy q = true /\
       exists e,
         chat_completions_create client (with_system l ++ [mkMessage user q])%list
         = Raise e /\
         run (on_submit py_repr client w) l
         = (Done tt,
            mkState (with_system l ++ [mkMessage user q])%list
              (evs ++ [ChatCall "gpt-4o-mini" (with_system l ++ [mkMessage user q])%list;
                       Error ("OpenAI request failed: " ++ exc_msg e)])%list))
      \/
      (truthy q = true /\
       exists r a,
         chat_completions_create client (with_system l ++ [mkMessage user q])%list
         = Val r /\
         safe_get_assistant_text py_repr r = Val a /\
         run (on_submit py_repr client w) l
         = (Done tt,
            mkState ((with_system l ++ [mkMessage user q]) ++ [mkMessage assistant a])%list
              (evs ++ [ChatCall "gpt-4o-mini" (with_system l ++ [mkMessage user q])%list;
                       Success "Here’s what The Bard says:";
                       Write a;
                       Error voice_error])%list)))).
Proof.
  unfold run.
  destruct (key_accepted (api_key w)) eqn:K.
  - right. split; [reflexivity|].
    destruct (determine_final_question_shape w (with_system l) []) as (q & evs & Hq & Hev).
    simpl app in Hq. exists q, evs. split; [exact Hq|]. split; [exact Hev|].
    rewrite (on_submit_accepted w l [] q _ K Hq). cbv beta iota delta [messages shown].
    destruct (truthy q) eqn:T.
    + right.
      destruct (chat_completions_create client (with_system l ++ [mkMessage user q])%list)
        as [r|e] eqn:C.
      * right. split; [reflexivity|].
        destruct (safe_get_assistant_text_total py_repr r) as [a Ha].
        exists r, a. split; [reflexivity|]. split; [exact Ha|].
        now apply converse_reply with (r := r).
      * left. split; [reflexivity|]. exists e. split; [reflexivity|].
        now apply converse_raise.
    + left. split; reflexivity.
  - left. split; [reflexivity|]. now apply on_submit_rejected.
Qed.

Lemma before_chat_not_chat evs model history :
  forallb before_chat evs = true -> ~ In (ChatCall model history) evs.
Proof.
  intros H Hin. rewrite forallb_forall in H. now specialize (H _ Hin).
Qed.

Lemma before_chat_no_speech evs :
  forallb before_chat evs = true -> existsb is_speech_call evs = false.
Proof.
  induction evs as [|ev evs IH]; simpl; [reflexivity|].
  unfold before_chat at 1. intros H.
  apply andb_prop in H as [H1 H2]. apply andb_prop in H1 as [_ H1].
  rewrite (IH H2). now destruct (is_speech_call ev).
Qed.

(** C7.  If a run of the submit handler issues the chat call and that call
    raises [e], then the run issues no speech call, and the last thing it
    shows, straight after the chat call, is the error
    "OpenAI request failed: " followed by the text of [e]. *)
Theorem chat_failure_skips_speech w l model history e :
  In (ChatCall model history) (shown_by (on_submit py_repr client w) l) ->
  chat_completions_create client history = Raise e ->
  existsb is_speech_call (shown_by (on_submit py_repr client w) l) = false /\
  exists evs,
    shown_by (on_submit py_repr client w) l
    = (evs ++ [ChatCall model history;
               Error ("OpenAI request failed: " ++ exc_msg e)])%list /\
    forallb before_chat evs = true.
Proof.
  unfold shown_by. intros Hin Hraise.
  destruct (on_submit_cases w l)
    as [[_ R] | (_ & q & evs & _ & Hev & [[_ R] | [(_ & e' & C & R) | (_ & r & a & C & _ & R)]])];
    rewrite R in *; cbn [snd shown] in *.
  - destruct Hin as [Hin | []]. discriminate.
  - apply in_app_or in Hin as [Hin | [Hin | []]].
    + now apply before_chat_not_chat in Hin.
    + discriminate.
  - apply in_app_or in Hin as [Hin | [Hin | [Hin | []]]].
    + now apply before_chat_not_chat in Hin.
    + injection Hin as <- <-. rewrite C in Hraise. injection Hraise as <-.
      split.
      * rewrite existsb_app, (before_chat_no_speech _ Hev). reflexivity.
      * exists evs. split; [reflexivity | exact Hev].
    + discriminate.
  - apply in_app_or in Hin as [Hin | [Hin | [Hin | [Hin | [Hin | []]]]]];
      try discriminate.
    + now apply before_chat_not_chat in Hin.
    + injection Hin as <- <-. rewrite C in Hraise. discriminate.
Qed.

(** C2, amended.  A submission with empty typed text and an audio file whose
    transcription raises issues neither the chat call nor the speech call and
    appends no user or assistant message.  The message list is left as it
    was, except that an accepted submission puts the system prompt in front
    when no system message was there; an accepted submission ends in
    [st.stop()]. *)
Theorem failed_transcription_halts_before_chat w f e l :
  user_question w = "" ->
  voice_file w = Some f ->
  transcriptions_create client f = Raise e ->
  existsb is_chat_call (shown_by (on_submit py_repr client w) l) = false /\
  existsb is_speech_call (shown_by (on_submit py_repr client w) l) = false /\
  messages_after (on_submit py_repr client w) l
  = (if key_accepted (api_key w) && negb (existsb is_system l)
     then system_message :: l else l) /\
  (key_accepted (api_key w) = true ->
   fst (run (on_submit py_repr client w) l) = Abort (Control StopException)).
Proof.
  intros Hq Hf He. unfold shown_by, messages_after, run.
  destruct (key_accepted (api_key w)) eqn:K.
  - assert (D : determine_final_question py_repr client w (mkState (with_system l) [])
                = (Done (PyStr ""),
                   mkState (with_system l)
                     [Info "Transcribing audio…"; TranscriptionCall "whisper-1" f;
                      Error ("Transcription failed: " ++ exc_msg e)])).
    { unfold determine_final_question. rewrite Hf, Hq.
      now rewrite (transcribe_raise _ _ e). }
    rewrite (on_submit_accepted w l [] _ _ K D).
    cbn [truthy String.eqb negb snd fst shown messages app existsb is_chat_call
         is_speech_call orb andb].
    repeat split. now destruct (existsb is_system l).
  - rewrite (on_submit_rejected w l [] K). repeat split. discriminate.
Qed.

(** C1, amended.  When an audio file is supplied, the question is the
    transcript if the transcription call returns and a truthy (non-empty)
    text is extracted from it, and otherwise (the call raises, or no text
    is extracted) the typed text with leading and trailing white space
    stripped.  In an accepted submission that question, when it is not
    empty, is the content of the user message that ends the history sent to
    the chat call; when the fallback is empty the chat call is not issued
    and the submission ends in [st.stop()]. *)
Theorem final_question_prefers_transcript w f l :
  voice_file w = Some f ->
  key_accepted (api_key w) = true ->
  (forall t v,
     transcriptions_create client f = Val t ->
     safe_get_transcription_text t = Val v ->
     truthy v = true ->
     (forall l', fst (run (determine_final_question py_repr client w) l') = Done v) /\
     In (ChatCall "gpt-4o-mini" (with_system l ++ [mkMessage user v])%list)
        (shown_by (on_submit py_repr client w) l)) /\
  ((exists e, transcriptions_create client f = Raise e) \/
   (exists t v, transcriptions_create client f = Val t /\
                safe_get_transcription_text t = Val v /\ truthy v = false) ->
   (forall l', fst (run (determine_final_question py_repr client w) l')
               = Done (PyStr (strip (user_question w)))) /\
   (strip (user_question w) <> "" ->
    In (ChatCall "gpt-4o-mini"
          (with_system l ++ [mkMessage user (PyStr (strip (user_question w)))])%list)
       (shown_by (on_submit py_repr client w) l)) /\
   (strip (user_question w) = "" ->
    existsb is_chat_call (shown_by (on_submit py_repr client w) l) = false /\
    fst (run (on_submit py_repr client w) l) = Abort (Control StopException))).
Proof.
  intros Hf K.
  assert (Chat : forall q s',
            determine_final_question py_repr client w (mkState (with_system l) [])
            = (Done q, s') ->
            messages s' = with_system l ->
            truthy q = true ->
            In (ChatCall "gpt-4o-mini" (with_system l ++ [mkMessage user q])%list)
               (shown_by (on_submit py_repr client w) l)).
  { intros q s' D Hm T. unfold shown_by, run.
    rewrite (on_submit_accepted w l [] q s' K D), T, Hm.
    destruct (chat_completions_create client (with_system l ++ [mkMessage user q])%list)
      as [r|e] eqn:C.
    - destruct (safe_get_assistant_text_total py_repr r) as [a Ha].
      rewrite (converse_reply w r a _ _ C Ha). cbn [snd shown].
      apply in_or_app. right. now left.
    - rewrite (converse_raise w e _ _ C). cbn [snd shown].
      apply in_or_app. right. now left. }
  split.
  - intros t v Ht Hv T. split.
    + intros l'. unfold run, determine_final_question. rewrite Hf.
      now rewrite (transcribe_text _ _ t v).
    + eapply Chat;
        [ unfold determine_final_question; rewrite Hf;
          now rewrite (transcribe_text _ _ t v)
        | reflexivity | exact T ].
  - intros Hfail.
    assert (D : forall l' sh, exists evs,
              determine_final_question py_repr client w (mkState l' sh)
              = (Done (PyStr (strip (user_question w))), mkState l' (sh ++ evs)%list) /\
              existsb is_chat_call evs = false).
    { intros l' sh. unfold determine_final_question. rewrite Hf.
      destruct Hfail as [[e He] | (t & v & Ht & Hv & T)].
      - eexists. rewrite (transcribe_raise _ _ e); [| exact He].
        split; reflexivity.
      - eexists. rewrite (transcribe_no_text _ _ t v); [| assumption ..].
        split; reflexivity. }
    split; [| split].
    + intros l'. unfold run. destruct (D l' []) as (evs & -> & _). reflexivity.
    + intros Hne. destruct (D (with_system l) []) as (evs & Hd & _).
      eapply Chat; [exact Hd | reflexivity |].
      cbn [truthy]. apply negb_true_iff. now apply String.eqb_neq.
    + intros He. destruct (D (with_system l) []) as (evs & Hd & Hq).
      unfold shown_by, run.
      rewrite (on_submit_accepted w l [] _ _ K Hd), He.
      cbn [truthy String.eqb negb fst snd shown messages app].
      rewrite existsb_app, Hq. split; reflexivity.
Qed.

(** When the chat call of a run returns, the reply is appended and written,
    and the run then ends in the error raised by [voice_map[voice_style]]:
    no speech call is issued. *)
Lemma chat_success_ends_in_voice_error w l model history r :
  In (ChatCall model history) (shown_by (on_submit py_repr client w) l) ->
  chat_completions_create client history = Val r ->
  exists a evs,
    safe_get_assistant_text py_repr r = Val a /\
    messages_after (on_submit py_repr client w) l
    = (history ++ [mkMessage assistant a])%list /\
    shown_by (on_submit py_repr client w) l
    = (evs ++ [ChatCall model history;
               Success "Here’s what The Bard says:";
               Write a;
               Error voice_error])%list /\
    forallb before_chat evs = true /\
    existsb is_speech_call (shown_by (on_submit py_repr client w) l) = false.
Proof.
  unfold shown_by, messages_after. intros Hin Hval.
  destruct (on_submit_cases w l)
    as [[_ R] | (_ & q & evs & _ & Hev & [[_ R] | [(_ & e' & C & R) | (_ & r' & a & C & Ha & R)]])];
    rewrite R in *; cbn [snd shown messages] in *.
  - destruct Hin as [Hin | []]. discriminate.
  - apply in_app_or in Hin as [Hin | [Hin | []]].
    + now apply before_chat_not_chat in Hin.
    + discriminate.
  - apply in_app_or in Hin as [Hin | [Hin | [Hin | []]]]; try discriminate.
    + now apply before_chat_not_chat in Hin.
    + injection Hin as <- <-. rewrite C in Hval. discriminate.
  - apply in_app_or in Hin as [Hin | [Hin | [Hin | [Hin | [Hin | []]]]]];
      try discriminate.
    + now apply before_chat_not_chat in Hin.
    + injection Hin as <- <-. rewrite C in Hval. injection Hval as <-.
      exists a, evs. repeat split; try assumption.
      rewrite existsb_app, (before_chat_no_speech _ Hev). reflexivity.
Qed.

(** C10, amended.  For a transcription response whose text is there and
    empty, [safe_get_transcription_text] returns a value that is not truthy:
    the empty string itself for a dictionary, [None] for an object.  The
    handler tests truthiness, so the question stays the stripped typed text,
    and an accepted submission whose typed text is blank ends in
    [st.stop()]. *)
Theorem empty_transcript_falls_back w f t l :
  voice_file w = Some f ->
  transcriptions_create client f = Val t ->
  empty_text_response t = true ->
  (exists v, safe_get_transcription_text t = Val v /\ truthy v = false) /\
  (forall d, t = PyDict d -> safe_get_transcription_text t = Val (PyStr "")) /\
  (forall cls attrs, t = PyObject cls attrs ->
     safe_get_transcription_text t = Val PyNone) /\
  fst (run (determine_final_question py_repr client w) l)
  = Done (PyStr (strip (user_question w))) /\
  (key_accepted (api_key w) = true -> strip (user_question w) = "" ->
   fst (run (on_submit py_repr client w) l) = Abort (Control StopException)).
Proof.
  intros Hf Ht He.
  assert (Hv : (forall d, t = PyDict d -> safe_get_transcription_text t = Val (PyStr "")) /\
               (forall cls attrs, t = PyObject cls attrs ->
                  safe_get_transcription_text t = Val PyNone) /\
               exists v, safe_get_transcription_text t = Val v /\ truthy v = false).
  { destruct t; try discriminate He; cbn in He.
    - destruct (assoc key_eqb (KStr "text") d) as [[| | |[|]| | | | | | |]|] eqn:A;
        try discriminate He.
      assert (E : safe_get_transcription_text (PyDict d) = Val (PyStr "")).
      { unfold safe_get_transcription_text, getattr_default, py_get.
        cbn. now rewrite A. }
      repeat split; try (intros; discriminate).
      + intros _ _. exact E.
      + exists (PyStr ""). now split.
    - destruct (assoc String.eqb "text" attrs) as [[| | |[|]| | | | | | |]|] eqn:A;
        try discriminate He.
      destruct (assoc String.eqb "get" attrs) eqn:G; try discriminate He.
      assert (E : safe_get_transcription_text (PyObject cls attrs) = Val PyNone).
      { unfold safe_get_transcription_text, getattr_default, py_get, py_getattr.
        rewrite A. cbn [truthy String.eqb negb]. rewrite G. reflexivity. }
      repeat split; try (intros; discriminate).
      + intros _ _ _. exact E.
      + exists PyNone. now split. }
  destruct Hv as (Hd & Ho & v & Hv & T).
  assert (D : forall l' sh, exists evs,
            determine_final_question py_repr client w (mkState l' sh)
            = (Done (PyStr (strip (user_question w))), mkState l' evs)).
  { intros l' sh. unfold determine_final_question. rewrite Hf.
    eexists. now rewrite (transcribe_no_text _ _ t v). }
  repeat split; try assumption.
  - now exists v.
  - unfold run. destruct (D l []) as [evs ->]. reflexivity.
  - intros K Hs. unfold run. destruct (D (with_system l) []) as [evs Hq].
    rewrite (on_submit_accepted w l [] _ _ K Hq), Hs. reflexivity.
Qed.

(* ------------------------------------------------------------------ *)
(** ** The message list across a session *)

Lemma existsb_false_filter {A} (f : A -> bool) (l : list A) :
  existsb f l = false -> filter f l = [].
Proof.
  induction l as [|a l IH]; simpl; [reflexivity|].
  intros H. apply orb_false_elim in H as [Ha Hl]. rewrite Ha. now apply IH.
Qed.

Lemma existsb_true_filter {A} (f : A -> bool) (l : list A) :
  existsb f l = true -> 1 <= List.length (filter f l).
Proof.
  induction l as [|a l IH]; simpl; [discriminate|].
  destruct (f a); simpl; intros H; [lia | now apply IH].
Qed.

Lemma conversation_invariant_test (l : list Message) :
  conversation_invariant l <-> system_first l = true.
Proof.
  unfold conversation_invariant, count_system. destruct l as [|m rest]; simpl.
  - split; [reflexivity|]. intros _. split; [lia | discriminate].
  - split.
    + intros [Hc Hf]. apply negb_true_iff.
      destruct (existsb is_system rest) eqn:E; [|reflexivity].
      apply existsb_true_filter in E.
      destruct Hf as (m' & rest' & Heq & Hm); [now rewrite orb_true_r|].
      injection Heq as <- <-. rewrite Hm in Hc. simpl in Hc. lia.
    + intros H. apply negb_true_iff in H. rewrite (existsb_false_filter _ _ H), H.
      split.
      * destruct (is_system m); simpl; lia.
      * rewrite orb_false_r. intros Hm. now exists m, rest.
Qed.

Lemma system_first_with_system l :
  system_first l = true -> system_first (with_system l) = true.
Proof.
  intros H. destruct (existsb is_system l) eqn:E; [exact H|].
  simpl. now rewrite E.
Qed.

Lemma system_first_append l m :
  is_system m = false -> system_first l = true -> system_first (l ++ [m])%list = true.
Proof.
  intros Hm. destruct l as [|m0 rest]; simpl; [reflexivity|].
  intros H. apply negb_true_iff in H. apply negb_true_iff.
  rewrite existsb_app, H. simpl. now rewrite Hm.
Qed.

Lemma emit_run ev l sh :
  emit ev (mkState l sh) = (Done tt, mkState l (sh ++ [ev])%list).
Proof. reflexivity. Qed.

Lemma sidebar_run k l sh :
  exists ev, sidebar k (mkState l sh) = (Done tt, mkState l (sh ++ [ev])%list).
Proof.
  unfold sidebar.
  destruct (nonempty k && startswith k "sk-" && (40 <? String.length k)%nat);
    [| destruct (nonempty k)]; eexists; apply emit_run.
Qed.

Lemma render_run l0 l sh :
  exists evs, render py_repr l0 (mkState l sh) = (Done tt, mkState l (sh ++ evs)%list).
Proof.
  revert sh. induction l0 as [|m l0 IH]; intros sh; simpl.
  - exists []. unfold ret. now rewrite app_nil_r.
  - unfold mbind at 1.
    destruct (msg_role m); [unfold ret | rewrite emit_run | rewrite emit_run];
      match goal with
      | |- context [render py_repr l0 (mkState l ?sh')] =>
          destruct (IH sh') as [evs ->]
      end.
    + now exists evs.
    + eexists. now rewrite <- app_assoc.
    + eexists. now rewrite <- app_assoc.
Qed.

(** The messages the submit handler leaves, whatever was shown before. *)
Lemma on_submit_messages w l sh :
  let after := messages (snd (on_submit py_repr client w (mkState l sh))) in
  after = l \/ after = with_system l \/
  (exists q, after = (with_system l ++ [mkMessage user q])%list) \/
  (exists q a, after = ((with_system l ++ [mkMessage user q])
                        ++ [mkMessage assistant a])%list).
Proof.
  cbv zeta.
  destruct (key_accepted (api_key w)) eqn:K.
  - destruct (determine_final_question_shape w (with_system l) sh) as (q & evs & Hq & _).
    rewrite (on_submit_accepted w l sh q _ K Hq). cbn [messages shown].
    destruct (truthy q).
    + destruct (chat_completions_create client (with_system l ++ [mkMessage user q])%list)
        as [r|e] eqn:C.
      * destruct (safe_get_assistant_text_total py_repr r) as [a Ha].
        rewrite (converse_reply w r a _ _ C Ha). right. right. right. now exists q, a.
      * rewrite (converse_raise w e _ _ C). right. right. left. now exists q.
    + right. now left.
  - rewrite (on_submit_rejected w l sh K). now left.
Qed.

Lemma show_conversation_run l sh :
  exists evs, show_conversation py_repr (mkState l sh) = (Done tt, mkState l evs).
Proof.
  unfold show_conversation, mbind, get_messages. cbn [messages].
  destruct l as [|m l'].
  - unfold ret. eauto.
  - rewrite emit_run.
    destruct (render_run (m :: l') (m :: l') (sh ++ [Markdown "### Conversation"])%list)
      as [evs ->].
    eauto.
Qed.

End HandlerProperties.

Section SessionProperties.

Variable py_repr : value -> string.

Local Abbreviation system_message := (mkMessage system (PyStr SYSTEM_PROMPT)).
Local Abbreviation with_system l :=
  (if existsb is_system l%list then l%list else (system_message :: l)%list).

(** One run of the script, reduced to its handlers. *)
Lemma step_handlers l w client :
  exists evs,
    step py_repr l (w, client)
    = match options w with
      | AskWilliam =>
          if clear w then []
          else if submit w
               then messages (snd (on_submit py_repr client w (mkState l evs)))
               else l
      | _ => l
      end.
Proof.
  unfold step, messages_after, run, script. cbn [fst snd].
  unfold mbind at 1. destruct (sidebar_run (api_key w) l []) as [ev0 ->].
  destruct (options w); [exists []; reflexivity | exists []; reflexivity |].
  unfold mbind at 1. unfold ask_william.
  unfold mbind at 1. rewrite emit_run.
  unfold mbind at 1. rewrite emit_run.
  unfold mbind at 1. rewrite emit_run.
  unfold mbind at 1.
  match goal with
  | |- context [show_conversation py_repr (mkState l ?sh')] =>
      destruct (show_conversation_run py_repr l sh') as [evs ->]
  end.
  exists evs.
  unfold mbind at 1.
  destruct (clear w); [reflexivity|]. unfold ret at 1.
  destruct (submit w); [|reflexivity].
  now destruct (on_submit py_repr client w (mkState l evs)) as [[[]|sg] [l2 sh2]].
Qed.

(** One run of the script: a clear empties the list; otherwise the list is
    left, or extended by the submit handler. *)
Lemma step_cases l (i : interaction) :
  (clear (fst i) = true /\ step py_repr l i = []) \/
  (step py_repr l i = l \/ step py_repr l i = with_system l \/
   (exists q, step py_repr l i = (with_system l ++ [mkMessage user q])%list) \/
   (exists q a, step py_repr l i = ((with_system l ++ [mkMessage user q])
                                    ++ [mkMessage assistant a])%list)).
Proof.
  destruct i as [w client]. cbn [fst].
  destruct (step_handlers l w client) as [evs ->].
  destruct (options w); [right; now left | right; now left |].
  destruct (clear w); [left; now split | right].
  destruct (submit w); [| now left].
  apply (on_submit_messages py_repr client w l evs).
Qed.

(** The invariant survives a run of the script. *)
Lemma step_system_first l i :
  system_first l = true -> system_first (step py_repr l i) = true.
Proof.
  intros H.
  destruct (step_cases l i)
    as [[_ ->] | [-> | [-> | [[q ->] | (q & a & ->)]]]].
  - reflexivity.
  - exact H.
  - now apply system_first_with_system.
  - apply system_first_append; [reflexivity|]. now apply system_first_with_system.
  - apply system_first_append; [reflexivity|].
    apply system_first_append; [reflexivity|]. now apply system_first_with_system.
Qed.

(** Without a clear, a system message stays. *)
Lemma step_keeps_system l i :
  clear (fst i) = false ->
  existsb is_system l = true -> existsb is_system (step py_repr l i) = true.
Proof.
  intros Cl H.
  destruct (step_cases l i)
    as [[Cl' _] | [-> | [-> | [[q ->] | (q & a & ->)]]]].
  - congruence.
  - exact H.
  - now rewrite H.
  - rewrite H, existsb_app, H. reflexivity.
  - rewrite H, !existsb_app, H. reflexivity.
Qed.

Lemma session_states_head l todo :
  exists rest, session_states py_repr l todo = l :: rest.
Proof. destruct todo; simpl; eauto. Qed.

Lemma system_insertions_cons l l' todo :
  system_insertions (l :: session_states py_repr l' todo)
  = (if negb (existsb is_system l) && existsb is_system l' then 1 else 0)
    + system_insertions (session_states py_repr l' todo).
Proof.
  destruct (session_states_head l' todo) as [rest E]. rewrite E. reflexivity.
Qed.

Lemma no_insertion_while_present todo : forall l,
  (forall i, In i todo -> clear (fst i) = false) ->
  existsb is_system l = true ->
  system_insertions (session_states py_repr l todo) = 0.
Proof.
  induction todo as [|i todo IH]; intros l Hc H; [reflexivity|].
  cbn [session_states]. rewrite system_insertions_cons, H. simpl.
  apply IH.
  - intros j Hj. apply Hc. now right.
  - apply step_keeps_system; [apply Hc; now left | exact H].
Qed.

Lemma one_insertion_between_clears todo : forall l,
  (forall i, In i todo -> clear (fst i) = false) ->
  system_insertions (session_states py_repr l todo) <= 1.
Proof.
  induction todo as [|i todo IH]; intros l Hc; [simpl; lia|].
  cbn [session_states]. rewrite system_insertions_cons.
  assert (Hc' : forall j, In j todo -> clear (fst j) = false)
    by (intros j Hj; apply Hc; now right).
  destruct (existsb is_system (step py_repr l i)) eqn:E.
  - rewrite (no_insertion_while_present todo _ Hc' E).
    destruct (existsb is_system l); simpl; lia.
  - rewrite andb_false_r. simpl. now apply IH.
Qed.

Lemma session_states_system_first todo : forall l,
  system_first l = true ->
  Forall (fun l' => system_first l' = true) (session_states py_repr l todo).
Proof.
  induction todo as [|i todo IH]; intros l H; cbn [session_states].
  - now constructor.
  - constructor; [exact H|]. apply IH. now apply step_system_first.
Qed.

(** C9, amended.  Each operation on the message list (the insertion of the
    system prompt, the append of a user message, the append of an assistant
    message, the clear) keeps the invariant: at most one system message, and
    first when present.  The system prompt is inserted only when no system
    message is present; so every state of a session keeps the invariant, and
    a stretch of a session without a clear sees at most one insertion. *)
Theorem conversation_invariant_preserved l :
  conversation_invariant l ->
  conversation_invariant (messages_after ensure_system_prompt l) /\
  (forall q, conversation_invariant (messages_after (append (mkMessage user q)) l)) /\
  (forall a, conversation_invariant (messages_after (append (mkMessage assistant a)) l)) /\
  conversation_invariant (messages_after on_clear l) /\
  (existsb is_system l = true -> messages_after ensure_system_prompt l = l) /\
  (forall todo, Forall conversation_invariant (session_states py_repr l todo)) /\
  (forall todo, (forall i, In i todo -> clear (fst i) = false) ->
     system_insertions (session_states py_repr l todo) <= 1).
Proof.
  intros H. apply conversation_invariant_test in H.
  unfold messages_after, run. rewrite ensure_system_prompt_run. cbn [snd messages].
  split; [| split; [| split; [| split; [| split; [| split]]]]].
  - apply conversation_invariant_test. now apply system_first_with_system.
  - intros q. apply conversation_invariant_test. now apply system_first_append.
  - intros a. apply conversation_invariant_test. now apply system_first_append.
  - now apply conversation_invariant_test.
  - intros Hs. now rewrite Hs.
  - intros todo. eapply Forall_impl; [| now apply session_states_system_first].
    intros l'. apply conversation_invariant_test.
  - intros todo. apply one_insertion_between_clears.
Qed.

End SessionProperties.

(* ================================================================== *)
(** * The properties at sample inputs *)
(* ================================================================== *)

(** ** The four shapes of a chat response *)

Example assistant_text_attribute_chain :
  safe_get_assistant_text plain_repr (chat_completion "Ay.") = Val (PyStr "Ay.").
Proof. reflexivity. Qed.

Example assistant_text_message_key :
  safe_get_assistant_text plain_repr (chat_completion_message_dict "Ay.")
  = Val (PyStr "Ay.").
Proof. reflexivity. Qed.

Example assistant_text_choice_key :
  safe_get_assistant_text plain_repr (chat_completion_choice_dict "Ay.")
  = Val (PyStr "Ay.").
Proof. reflexivity. Qed.

(** A plain dictionary has no attribute [choices]: all three paths raise. *)
Example assistant_text_unparseable :
  safe_get_assistant_text plain_repr
    (PyDict [(KStr "choices",
              PyList [PyDict [(KStr "message", PyDict [(KStr "content", PyStr "Ay.")])]])])
  = Val (PyStr "<dict>").
Proof. reflexivity. Qed.

(** ** The shapes of an audio response *)

Example audio_bytes_readable :
  safe_get_audio_bytes
    (PyObject "HttpxBinaryResponseContent"
       [("content", PyBytes [Byte.x63]); ("read", PyCallable (Val (PyBytes [Byte.x72])))])
  = Val (PyBytes [Byte.x72]).
Proof. reflexivity. Qed.

Example audio_bytes_content :
  safe_get_audio_bytes (PyObject "Response" [("content", PyBytes [Byte.x63])])
  = Val (PyBytes [Byte.x63]).
Proof. reflexivity. Qed.

Example audio_bytes_raw :
  safe_get_audio_bytes (PyByteArray [Byte.x62]) = Val (PyBytes [Byte.x62]).
Proof. reflexivity. Qed.

Example audio_bytes_dict :
  safe_get_audio_bytes
    (PyDict [(KStr "content", PyBytes [Byte.x63]); (KStr "data", PyBytes [Byte.x64])])
  = Val (PyBytes [Byte.x64]).
Proof. reflexivity. Qed.

Example audio_bytes_unmatched :
  safe_get_audio_bytes (PyStr "mp3") = Val PyNone.
Proof. reflexivity. Qed.

Example audio_bytes_read_raises :
  safe_get_audio_bytes
    (PyObject "Stream"
       [("read", PyCallable (Raise (api_error "closed"))); ("content", PyBytes [Byte.x63])])
  = Val PyNone.
Proof. reflexivity. Qed.

(** ** The voice table *)

(** The dictionary held by the tuple does map each label of the select box
    to a non-empty identifier. *)
Lemma voice_dictionary_complete :
  Forall (fun label =>
            exists d id,
              py_getitem plain_repr voice_map (PyInt 0) = Val (PyDict d) /\
              py_getitem plain_repr (PyDict d) (PyStr label) = Val (PyStr id) /\
              id <> "")
         voice_styles.
Proof.
  repeat constructor; eexists _, _;
    (split; [reflexivity | split; [reflexivity | discriminate]]).
Qed.

(** C4.  What the code does: for each of the six labels,
    [voice_map[voice_style]] raises [TypeError], because [voice_map] is a
    tuple and the label a string; no identifier is returned. *)
Theorem voice_map_lookup_raises :
  forall py_repr : value -> string,
    Forall (fun label =>
              py_getitem py_repr voice_map (PyStr label)
              = Raise (Exn TypeError "tuple indices must be integers or slices, not str"))
           voice_styles.
Proof. intros py_repr. repeat constructor. Qed.

(** C3.  What the code does when the chat call returns and the speech call
    would raise: the reply is appended and written, the speech call is not
    issued, and the run ends with [st.error] on the voice lookup, not with
    the warning of the speech block. *)
Theorem speech_failure_shown_as_request_error :
  run (on_submit plain_repr mute_client (submission "sk-test" "Who is Hamlet?" None)) []
  = (Done tt,
     mkState
       [mkMessage system (PyStr SYSTEM_PROMPT);
        mkMessage user (PyStr "Who is Hamlet?");
        mkMessage assistant (PyStr "The Prince of Denmark.")]
       [ChatCall "gpt-4o-mini"
          [mkMessage system (PyStr SYSTEM_PROMPT);
           mkMessage user (PyStr "Who is Hamlet?")];
        Success "Here’s what The Bard says:";
        Write (PyStr "The Prince of Denmark.");
        Error "OpenAI request failed: tuple indices must be integers or slices, not str"]).
Proof. reflexivity. Qed.

(** The gate of line 132 is the prefix test alone. *)
Lemma key_accepted_prefix (k : string) :
  key_accepted k = startswith k "sk-".
Proof.
  unfold key_accepted, startswith, nonempty.
  destruct k as [|c k]; [reflexivity|]. simpl String.eqb.
  now rewrite orb_false_l, negb_involutive.
Qed.

(** C8.  What the code does with a key that has the prefix and not the
    length: the sidebar reports it as invalid, the submit handler lets it
    through and issues the chat call. *)
Theorem short_key_passes_the_gate :
  shown_by (sidebar "sk-short") [] = [Warning "Invalid API key format."] /\
  key_accepted "sk-short" = true /\
  existsb is_chat_call
    (shown_by (on_submit plain_repr answering_client
                 (submission "sk-short" "Who is Hamlet?" None)) []) = true.
Proof. repeat split. Qed.

(** ** The tie-break at sample submissions *)

(** Typed text "ignored" and a recording transcribed to "Who is Hamlet?":
    the transcript is the question sent to the chat call. *)
Lemma final_question_prefers_transcript_witness :
  voice_file (submission "sk-test" "ignored" (Some recording)) = Some recording /\
  key_accepted (api_key (submission "sk-test" "ignored" (Some recording))) = true /\
  fst (run (determine_final_question plain_repr answering_client
              (submission "sk-test" "ignored" (Some recording))) [])
  = Done (PyStr "Who is Hamlet?") /\
  In (ChatCall "gpt-4o-mini"
        [mkMessage system (PyStr SYSTEM_PROMPT); mkMessage user (PyStr "Who is Hamlet?")])
     (shown_by (on_submit plain_repr answering_client
                  (submission "sk-test" "ignored" (Some recording))) []).
Proof.
  split; [reflexivity|]. split; [reflexivity|].
  destruct (final_question_prefers_transcript plain_repr answering_client
              (submission "sk-test" "ignored" (Some recording)) recording []
              eq_refl eq_refl) as [H _].
  destruct (H (transcription "Who is Hamlet?") (PyStr "Who is Hamlet?")
              eq_refl eq_refl eq_refl) as [Hq Hin].
  split; [apply Hq | exact Hin].
Defined.

(** C1 as stated fails: with typed text "  What is tragedy?  " and a
    recording whose transcription raises, the question is the stripped text,
    not the typed text. *)
Lemma typed_text_is_stripped :
  voice_file (submission "sk-test" "  What is tragedy?  " (Some recording))
  = Some recording /\
  transcriptions_create deaf_client recording = Raise (api_error "unsupported audio") /\
  fst (run (determine_final_question plain_repr deaf_client
              (submission "sk-test" "  What is tragedy?  " (Some recording))) [])
  = Done (PyStr "What is tragedy?") /\
  fst (run (determine_final_question plain_repr deaf_client
              (submission "sk-test" "  What is tragedy?  " (Some recording))) [])
  <> Done (PyStr (user_question
                    (submission "sk-test" "  What is tragedy?  " (Some recording)))).
Proof. repeat split. discriminate. Qed.

(** ** The empty-question halt at sample submissions *)

Lemma failed_transcription_halts_before_chat_witness :
  user_question (submission "sk-test" "" (Some recording)) = "" /\
  voice_file (submission "sk-test" "" (Some recording)) = Some recording /\
  transcriptions_create deaf_client recording = Raise (api_error "unsupported audio") /\
  existsb is_chat_call
    (shown_by (on_submit plain_repr deaf_client
                 (submission "sk-test" "" (Some recording)))
       [mkMessage system (PyStr SYSTEM_PROMPT)]) = false /\
  messages_after (on_submit plain_repr deaf_client
                    (submission "sk-test" "" (Some recording)))
    [mkMessage system (PyStr SYSTEM_PROMPT)]
  = [mkMessage system (PyStr SYSTEM_PROMPT)].
Proof.
  split; [reflexivity|]. split; [reflexivity|]. split; [reflexivity|].
  destruct (failed_transcription_halts_before_chat plain_repr deaf_client
              (submission "sk-test" "" (Some recording)) recording
              (api_error "unsupported audio") [mkMessage system (PyStr SYSTEM_PROMPT)]
              eq_refl eq_refl eq_refl) as (Hc & _ & Hm & _).
  split; [exact Hc | exact Hm].
Defined.

(** C2 as stated fails: on a fresh session the same submission leaves the
    system prompt in the message list. *)
Lemma halted_submission_inserts_system_prompt :
  user_question (submission "sk-test" "" (Some recording)) = "" /\
  transcriptions_create deaf_client recording = Raise (api_error "unsupported audio") /\
  fst (run (on_submit plain_repr deaf_client
              (submission "sk-test" "" (Some recording))) [])
  = Abort (Control StopException) /\
  messages_after (on_submit plain_repr deaf_client
                    (submission "sk-test" "" (Some recording))) []
  = [mkMessage system (PyStr SYSTEM_PROMPT)] /\
  messages_after (on_submit plain_repr deaf_client
                    (submission "sk-test" "" (Some recording))) []
  <> [].
Proof. repeat split. discriminate. Qed.

(** ** A failing chat call at a sample submission *)

Lemma chat_failure_skips_speech_witness :
  In (ChatCall "gpt-4o-mini"
        [mkMessage system (PyStr SYSTEM_PROMPT); mkMessage user (PyStr "Who is Hamlet?")])
     (shown_by (on_submit plain_repr silent_client
                  (submission "sk-test" "Who is Hamlet?" None)) []) /\
  chat_completions_create silent_client
    [mkMessage system (PyStr SYSTEM_PROMPT); mkMessage user (PyStr "Who is Hamlet?")]
  = Raise (api_error "Connection error.") /\
  existsb is_speech_call
    (shown_by (on_submit plain_repr silent_client
                 (submission "sk-test" "Who is Hamlet?" None)) []) = false.
Proof.
  assert (Hin : In (ChatCall "gpt-4o-mini"
                      [mkMessage system (PyStr SYSTEM_PROMPT);
                       mkMessage user (PyStr "Who is Hamlet?")])
                   (shown_by (on_submit plain_repr silent_client
                                (submission "sk-test" "Who is Hamlet?" None)) []))
    by (left; reflexivity).
  split; [exact Hin|]. split; [reflexivity|].
  exact (proj1 (chat_failure_skips_speech plain_repr silent_client
                  (submission "sk-test" "Who is Hamlet?" None) [] _ _
                  (api_error "Connection error.") Hin eq_refl)).
Defined.

(** ** The invariant at sample sessions *)

Lemma conversation_invariant_preserved_witness :
  conversation_invariant [] /\
  conversation_invariant (messages_after ensure_system_prompt []) /\
  system_insertions
    (session_states plain_repr []
       [(submission "sk-test" "Who is Hamlet?" None, answering_client);
        (submission "sk-test" "And Ophelia?" None, answering_client)]) <= 1.
Proof.
  assert (H0 : conversation_invariant [])
    by (split; [unfold count_system; simpl; lia | discriminate]).
  split; [exact H0|].
  destruct (conversation_invariant_preserved plain_repr [] H0) as (H1 & _ & _ & _ & _ & _ & H7).
  split; [exact H1|].
  apply H7. intros i [<- | [<- | []]]; reflexivity.
Defined.

(** C9 as stated fails: submit, clear, submit inserts the system prompt
    twice in one session. *)
Lemma system_prompt_inserted_again_after_clear :
  system_insertions
    (session_states plain_repr []
       [(submission "sk-test" "Who is Hamlet?" None, answering_client);
        (clearing, answering_client);
        (submission "sk-test" "And Ophelia?" None, answering_client)]) = 2 /\
  ~ system_insertions
      (session_states plain_repr []
         [(submission "sk-test" "Who is Hamlet?" None, answering_client);
          (clearing, answering_client);
          (submission "sk-test" "And Ophelia?" None, answering_client)]) <= 1.
Proof.
  assert (E : system_insertions
    (session_states plain_repr []
       [(submission "sk-test" "Who is Hamlet?" None, answering_client);
        (clearing, answering_client);
        (submission "sk-test" "And Ophelia?" None, answering_client)]) = 2)
    by reflexivity.
  split; [exact E | rewrite E; lia].
Qed.

(** ** An empty transcript at sample submissions *)

Lemma empty_transcript_falls_back_witness :
  voice_file (submission "sk-test" "What is tragedy?" (Some recording)) = Some recording /\
  transcriptions_create blank_client recording = Val (PyDict [(KStr "text", PyStr "")]) /\
  empty_text_response (PyDict [(KStr "text", PyStr "")]) = true /\
  fst (run (determine_final_question plain_repr blank_client
              (submission "sk-test" "What is tragedy?" (Some recording))) [])
  = Done (PyStr "What is tragedy?").
Proof.
  split; [reflexivity|]. split; [reflexivity|]. split; [reflexivity|].
  destruct (empty_transcript_falls_back plain_repr blank_client
              (submission "sk-test" "What is tragedy?" (Some recording)) recording
              (PyDict [(KStr "text", PyStr "")]) [] eq_refl eq_refl eq_refl)
    as (_ & _ & _ & H & _).
  exact H.
Defined.

(** C10 as stated fails: for a dictionary with an empty text the helper
    returns the empty string, not [None]. *)
Lemma empty_text_is_returned_for_dictionary :
  empty_text_response (PyDict [(KStr "text", PyStr "")]) = true /\
  safe_get_transcription_text (PyDict [(KStr "text", PyStr "")]) = Val (PyStr "") /\
  safe_get_transcription_text (PyDict [(KStr "text", PyStr "")]) <> Val PyNone.
Proof. repeat split. discriminate. Qed.

(* ================================================================== *)
(** * Further properties: the normalizers on other shapes *)
(* ================================================================== *)

Section NormalizerShapes.

Variable py_repr : value -> string.

(** X14.  [safe_get_transcription_text] on each shape of response: an
    object with a truthy [text] attribute gives that attribute; a dictionary
    gives the value under ["text"], or [None] when the key is missing; an
    object with neither [text] nor [get] gives [None]; and every other value
    (a plain string, bytes, a list, [None], ...) gives [None]. *)
Theorem safe_get_transcription_text_shapes (t : value) :
  (forall cls attrs v,
     t = PyObject cls attrs -> assoc String.eqb "text" attrs = Some v ->
     truthy v = true ->
     safe_get_transcription_text t = Val v) /\
  (forall d,
     t = PyDict d ->
     safe_get_transcription_text t
     = Val (match assoc key_eqb (KStr "text") d with
            | Some v => v
            | None => PyNone
            end)) /\
  (forall cls attrs,
     t = PyObject cls attrs -> assoc String.eqb "text" attrs = None ->
     assoc String.eqb "get" attrs = None ->
     safe_get_transcription_text t = Val PyNone) /\
  ((forall cls attrs, t <> PyObject cls attrs) -> (forall d, t <> PyDict d) ->
   safe_get_transcription_text t = Val PyNone).
Proof.
  split; [| split; [| split]].
  - intros cls attrs v -> A T.
    unfold safe_get_transcription_text, getattr_default, py_getattr.
    rewrite A, T. reflexivity.
  - intros d ->. unfold safe_get_transcription_text, getattr_default, py_get.
    cbn. now destruct (assoc key_eqb (KStr "text") d).
  - intros cls attrs -> A G.
    unfold safe_get_transcription_text, getattr_default, py_get, py_getattr.
    rewrite A. cbn [truthy]. rewrite G. reflexivity.
  - intros Ho Hd. destruct t; try reflexivity.
    + now elim (Hd d).
    + now elim (Ho cls attrs).
Qed.

(** X15.  [safe_get_assistant_text] parses only what has attributes: for a
    response that is not an object (a dictionary with the very keys, a
    string, [None], ...) all three paths raise at [response.choices] and the
    result is [str(response)]; the same for an object whose [choices] is an
    empty list. *)
Theorem assistant_text_needs_attributes (response : value) :
  ((forall cls attrs, response <> PyObject cls attrs) ->
   safe_get_assistant_text py_repr response = Val (PyStr (py_str py_repr response))) /\
  (forall cls attrs,
     response = PyObject cls attrs ->
     assoc String.eqb "choices" attrs = Some (PyList []) ->
     safe_get_assistant_text py_repr response = Val (PyStr (py_str py_repr response))).
Proof.
  split.
  - intros Ho. destruct response; try reflexivity. now elim (Ho cls attrs).
  - intros cls attrs -> A.
    unfold safe_get_assistant_text, attribute_path, message_key_path, choice_key_path,
      py_getattr.
    rewrite A. reflexivity.
Qed.

End NormalizerShapes.

(* ================================================================== *)
(** * Further properties: [strip] *)
(* ================================================================== *)

Lemma strip_all_space (s : string) :
  all_space s = true -> strip s = "".
Proof.
  unfold all_space, strip. intros H.
  assert (E : lstrip_chars (list_ascii_of_string s) = []).
  { induction (list_ascii_of_string s) as [|c l IH]; [reflexivity|].
    simpl in *. apply andb_prop in H as [Hc Hl]. rewrite Hc. now apply IH. }
  rewrite E. reflexivity.
Qed.

(* ================================================================== *)
(** * Further properties: the submit handler *)
(* ================================================================== *)

Section SubmissionProperties.

Variable py_repr : value -> string.
Variable client : Client.

Local Abbreviation system_message := (mkMessage system (PyStr SYSTEM_PROMPT)).
Local Abbreviation with_system l :=
  (if existsb is_system l%list then l%list else (system_message :: l)%list).
Local Abbreviation voice_error :=
  "OpenAI request failed: tuple indices must be integers or slices, not str".

Lemma count_events_app p (a b : list event) :
  count_events p (a ++ b) = count_events p a + count_events p b.
Proof. unfold count_events. now rewrite filter_app, length_app. Qed.

Lemma count_events_none p (evs : list event) :
  existsb p evs = false -> count_events p evs = 0.
Proof. unfold count_events. intros H. now rewrite (existsb_false_filter _ _ H). Qed.

Lemma before_chat_no_chat_call evs :
  forallb before_chat evs = true -> existsb is_chat_call evs = false.
Proof.
  induction evs as [|ev evs IH]; simpl; [reflexivity|].
  unfold before_chat at 1. intros H.
  apply andb_prop in H as [H1 H2]. apply andb_prop in H1 as [H1 _].
  rewrite (IH H2). now destruct (is_chat_call ev).
Qed.

(** What settling the question logs: no chat or speech call, no audio, and
    the transcription call once when a file was uploaded. *)
Lemma determine_final_question_log w l sh :
  exists q evs,
    determine_final_question py_repr client w (mkState l sh)
    = (Done q, mkState l (sh ++ evs)%list) /\
    forallb before_chat evs = true /\
    existsb is_audio evs = false /\
    count_events is_transcription_call evs
    = match voice_file w with Some _ => 1 | None => 0 end.
Proof.
  unfold determine_final_question.
  destruct (voice_file w) as [f|].
  - destruct (transcriptions_create client f) as [t|e] eqn:Ht.
    + destruct (safe_get_transcription_text_total t) as [v Hv].
      destruct (truthy v) eqn:Tv.
      * eexists _, _. split; [ now apply (transcribe_text py_repr client _ _ t v) |].
        repeat split.
      * eexists _, _. split; [ now apply (transcribe_no_text py_repr client _ _ t v) |].
        repeat split.
    + eexists _, _. split; [ now apply (transcribe_raise py_repr client _ _ e) |].
      repeat split.
  - exists (PyStr (strip (user_question w))), []. split; [| repeat split].
    unfold ret. now rewrite app_nil_r.
Qed.

(** Every log of the submit handler: what settling the question logged,
    then one of four endings. *)
Lemma on_submit_log w l :
  exists evs tail,
    shown_by (on_submit py_repr client w) l = (evs ++ tail)%list /\
    forallb before_chat evs = true /\
    existsb is_audio evs = false /\
    count_events is_transcription_call evs
    = (if key_accepted (api_key w)
       then match voice_file w with Some _ => 1 | None => 0 end
       else 0) /\
    (tail = [Warning "Enter a valid OpenAI API key in the sidebar."] \/
     tail = [Warning "Provide a typed question or upload a voice file."] \/
     (exists h e, tail = [ChatCall "gpt-4o-mini" h;
                          Error ("OpenAI request failed: " ++ exc_msg e)]) \/
     (exists h a, tail = [ChatCall "gpt-4o-mini" h;
                          Success "Here’s what The Bard says:";
                          Write a;
                          Error voice_error])).
Proof.
  unfold shown_by.
  destruct (on_submit_cases py_repr client w l)
    as [[K R] | (K & q & evs & Hq & _ & Hcases)].
  - exists [], [Warning "Enter a valid OpenAI API key in the sidebar."].
    rewrite R, K. repeat split. now left.
  - destruct (determine_final_question_log w (with_system l) [])
      as (q' & evs' & Hq' & Hb & Ha & Hc).
    rewrite Hq in Hq'. cbn [app] in Hq'. injection Hq' as _ <-.
    rewrite K.
    destruct Hcases as [[_ R] | [(_ & e & _ & R) | (_ & r & a & _ & _ & R)]];
      rewrite R; cbn [snd shown]; eexists evs, _;
      (split; [reflexivity|]); repeat (split; [assumption|]).
    + right. now left.
    + right. right. left. eauto.
    + right. right. right. eauto.
Qed.

(** X2.  A key that does not start with "sk-" (the empty key included)
    stops the submission at the gate: the handler shows its one warning,
    issues no remote call and leaves the messages as they were. *)
Theorem rejected_submission_does_nothing w l :
  startswith (api_key w) "sk-" = false ->
  run (on_submit py_repr client w) l
  = (Done tt, mkState l [Warning "Enter a valid OpenAI API key in the sidebar."]).
Proof.
  intros H. unfold run.
  rewrite (on_submit_rejected py_repr client w l []); [reflexivity|].
  now rewrite key_accepted_prefix.
Qed.

(** X3.  An accepted submission with typed text and no audio file issues no
    transcription call: the first thing it logs is the chat call, whose
    history is the messages (system prompt ensured) followed by the user
    message holding the stripped typed text. *)
Theorem typed_submission_goes_straight_to_chat w l :
  voice_file w = None ->
  key_accepted (api_key w) = true ->
  strip (user_question w) <> "" ->
  exists tail,
    shown_by (on_submit py_repr client w) l
    = ChatCall "gpt-4o-mini"
        (with_system l ++ [mkMessage user (PyStr (strip (user_question w)))])%list
      :: tail /\
    existsb is_transcription_call tail = false.
Proof.
  intros Hf K Hne. unfold shown_by, run.
  assert (D : determine_final_question py_repr client w (mkState (with_system l) [])
              = (Done (PyStr (strip (user_question w))), mkState (with_system l) [])).
  { unfold determine_final_question. now rewrite Hf. }
  assert (T : truthy (PyStr (strip (user_question w))) = true).
  { cbn [truthy]. apply negb_true_iff. now apply String.eqb_neq. }
  rewrite (on_submit_accepted py_repr client w l [] _ _ K D), T. cbn [messages shown].
  destruct (chat_completions_create client
              (with_system l ++ [mkMessage user (PyStr (strip (user_question w)))])%list)
    as [r|e] eqn:C.
  - destruct (safe_get_assistant_text_total py_repr r) as [a Ha].
    rewrite (converse_reply py_repr client w r a _ _ C Ha). cbn [snd shown app].
    eexists. split; reflexivity.
  - rewrite (converse_raise py_repr client w e _ _ C). cbn [snd shown app].
    eexists. split; reflexivity.
Qed.

(** X4.  Typed text made of white space only counts as no text: without an
    audio file an accepted submission shows the warning and ends in
    [st.stop()], with no remote call and no user message; only the system
    prompt may have been put in front. *)
Theorem blank_question_halts w l :
  voice_file w = None ->
  key_accepted (api_key w) = true ->
  all_space (user_question w) = true ->
  run (on_submit py_repr client w) l
  = (Abort (Control StopException),
     mkState (with_system l)
       [Warning "Provide a typed question or upload a voice file."]).
Proof.
  intros Hf K Hs. unfold run.
  assert (D : determine_final_question py_repr client w (mkState (with_system l) [])
              = (Done (PyStr ""), mkState (with_system l) [])).
  { unfold determine_final_question. now rewrite Hf, (strip_all_space _ Hs). }
  now rewrite (on_submit_accepted py_repr client w l [] _ _ K D).
Qed.

(** X6.  A run of the submit handler issues the transcription call exactly
    once when the key is accepted and a file was uploaded, and not at all
    otherwise; it issues the chat call at most once; and no transcription
    call comes after the chat call. *)
Theorem remote_calls_at_most_once w l :
  count_events is_transcription_call (shown_by (on_submit py_repr client w) l)
  = (if key_accepted (api_key w)
     then match voice_file w with Some _ => 1 | None => 0 end
     else 0) /\
  count_events is_chat_call (shown_by (on_submit py_repr client w) l) <= 1 /\
  exists evs tail,
    shown_by (on_submit py_repr client w) l = (evs ++ tail)%list /\
    existsb is_chat_call evs = false /\
    existsb is_transcription_call tail = false.
Proof.
  destruct (on_submit_log w l) as (evs & tail & -> & Hb & _ & Hc & Ht).
  rewrite !count_events_app, Hc,
    (count_events_none is_chat_call evs (before_chat_no_chat_call _ Hb)).
  repeat split.
  - destruct Ht as [-> | [-> | [(h & e & ->) | (h & a & ->)]]];
      cbn; lia.
  - destruct Ht as [-> | [-> | [(h & e & ->) | (h & a & ->)]]];
      cbn; lia.
  - exists evs, tail. repeat split.
    + now apply before_chat_no_chat_call.
    + destruct Ht as [-> | [-> | [(h & e & ->) | (h & a & ->)]]]; reflexivity.
Qed.

(** X7.  No run of the submit handler issues the speech call or plays
    audio: after a reply the lookup [voice_map[voice_style]] of line 201
    raises before the speech block is entered. *)
Theorem speech_is_never_reached w l :
  existsb is_speech_call (shown_by (on_submit py_repr client w) l) = false /\
  existsb is_audio (shown_by (on_submit py_repr client w) l) = false.
Proof.
  destruct (on_submit_log w l) as (evs & tail & -> & Hb & Ha & _ & Ht).
  rewrite !existsb_app, Ha, (before_chat_no_speech _ Hb).
  destruct Ht as [-> | [-> | [(h & e & ->) | (h & a & ->)]]]; split; reflexivity.
Qed.

(** The chat call of a run: its history is the messages (system prompt
    ensured) and the user's question, and the messages the run leaves are
    that history, with the reply appended when the call returns. *)
Lemma chat_call_history w l model history :
  In (ChatCall model history) (shown_by (on_submit py_repr client w) l) ->
  fst (run (on_submit py_repr client w) l) = Done tt /\
  (exists q, history = (with_system l ++ [mkMessage user q])%list /\ truthy q = true) /\
  ((exists e, chat_completions_create client history = Raise e /\
              messages_after (on_submit py_repr client w) l = history) \/
   (exists r a, chat_completions_create client history = Val r /\
                safe_get_assistant_text py_repr r = Val a /\
                messages_after (on_submit py_repr client w) l
                = (history ++ [mkMessage assistant a])%list)).
Proof.
  unfold shown_by, messages_after. intros Hin.
  destruct (on_submit_cases py_repr client w l)
    as [[_ R] | (_ & q & evs & _ & Hev & [[_ R] | [(T & e & C & R) | (T & r & a & C & Ha & R)]])];
    rewrite R in *; cbn [fst snd shown messages] in *.
  - destruct Hin as [Hin | []]. discriminate.
  - apply in_app_or in Hin as [Hin | [Hin | []]].
    + now apply before_chat_not_chat in Hin.
    + discriminate.
  - apply in_app_or in Hin as [Hin | [Hin | [Hin | []]]]; try discriminate.
    + now apply before_chat_not_chat in Hin.
    + injection Hin as <- <-. split; [reflexivity|]. split; [now exists q|].
      left. now exists e.
  - apply in_app_or in Hin as [Hin | [Hin | [Hin | [Hin | [Hin | []]]]]];
      try discriminate.
    + now apply before_chat_not_chat in Hin.
    + injection Hin as <- <-. split; [reflexivity|]. split; [now exists q|].
      right. now exists r, a.
Qed.

(** X8.  A chat call that raises is not rolled back: the run ends normally
    and the user's question stays in the messages, as their last element,
    with no assistant reply after it. *)
Theorem chat_failure_keeps_question w l model history e :
  In (ChatCall model history) (shown_by (on_submit py_repr client w) l) ->
  chat_completions_create client history = Raise e ->
  fst (run (on_submit py_repr client w) l) = Done tt /\
  messages_after (on_submit py_repr client w) l = history /\
  exists q,
    history = (with_system l ++ [mkMessage user q])%list /\ truthy q = true.
Proof.
  intros Hin He.
  destruct (chat_call_history w l model history Hin)
    as (Hd & Hq & [(e' & _ & Hm) | (r & a & C & _)]).
  - repeat split; assumption.
  - rewrite C in He. discriminate.
Qed.

(** X9.  The submit handler only ever extends the messages: what it leaves
    is the old list, unchanged and in order, with at most the system prompt
    put in front (only when there was no system message) and at most two
    messages, neither a system message, put behind. *)
Theorem submission_only_extends w l :
  exists pre post,
    messages_after (on_submit py_repr client w) l = (pre ++ l ++ post)%list /\
    (pre = [] \/ (pre = [system_message] /\ existsb is_system l = false)) /\
    existsb is_system post = false /\
    List.length post <= 2.
Proof.
  unfold messages_after, run.
  pose proof (on_submit_messages py_repr client w l []) as H. cbv zeta in H.
  destruct (existsb is_system l) eqn:E.
  - destruct H as [-> | [-> | [[q ->] | (q & a & ->)]]].
    + exists [], []. rewrite app_nil_r. repeat split; auto.
    + exists [], []. rewrite app_nil_r. repeat split; auto.
    + exists [], [mkMessage user q]. repeat split; auto.
    + exists [], [mkMessage user q; mkMessage assistant a].
      rewrite <- app_assoc. repeat split; auto.
  - destruct H as [-> | [-> | [[q ->] | (q & a & ->)]]].
    + exists [], []. rewrite app_nil_r. repeat split; auto.
    + exists [system_message], []. rewrite app_nil_r. repeat split; auto.
    + exists [system_message], [mkMessage user q]. repeat split; auto.
    + exists [system_message], [mkMessage user q; mkMessage assistant a].
      rewrite <- app_assoc. repeat split; auto.
Qed.

(** X10.  From messages that keep the invariant, the history sent to the
    chat call starts with a system message, has no other system message,
    and ends with the user message of this submission, whose content is
    truthy. *)
Theorem chat_history_is_well_formed w l model history :
  conversation_invariant l ->
  In (ChatCall model history) (shown_by (on_submit py_repr client w) l) ->
  exists first middle q,
    history = (first :: middle ++ [mkMessage user q])%list /\
    is_system first = true /\
    existsb is_system middle = false /\
    truthy q = true.
Proof.
  intros Hinv Hin.
  destruct (chat_call_history w l model history Hin) as (_ & (q & -> & T) & _).
  pose proof Hinv as [_ Hfirst]. apply conversation_invariant_test in Hinv.
  destruct (existsb is_system l) eqn:E.
  - destruct (Hfirst eq_refl) as (m & rest & -> & Hm).
    exists m, rest, q. repeat split; try assumption.
    simpl in Hinv. now apply negb_true_iff in Hinv.
  - exists system_message, l, q. repeat split; assumption.
Qed.

End SubmissionProperties.

(* ================================================================== *)
(** * Further properties: the page and the session *)
(* ================================================================== *)

Section PageProperties.

Variable py_repr : value -> string.

Lemma render_log l0 : forall l sh,
  render py_repr l0 (mkState l sh)
  = (Done tt,
     mkState l (sh ++ map (conversation_line py_repr)
                          (filter (fun m => negb (is_system m)) l0))%list).
Proof.
  induction l0 as [|m l0 IH]; intros l sh; simpl.
  - unfold ret. now rewrite app_nil_r.
  - unfold mbind.
    destruct m as [[| |] c]; cbn [msg_role is_system role_eqb negb filter map].
    + unfold ret. apply IH.
    + rewrite emit_run, IH. now rewrite <- app_assoc.
    + rewrite emit_run, IH. now rewrite <- app_assoc.
Qed.

(** X11.  The conversation display shows one line per user or assistant
    message, in the order of the list, and nothing for a system message; it
    ends normally and leaves the messages as they are. *)
Theorem render_shows_the_dialogue (l0 l : list Message) :
  run (render py_repr l0) l
  = (Done tt,
     mkState l (map (conversation_line py_repr)
                    (filter (fun m => negb (is_system m)) l0))).
Proof. unfold run. now rewrite render_log. Qed.

Lemma conversation_lines_quiet (l : list Message) :
  existsb is_remote_call (map (conversation_line py_repr) l) = false.
Proof. induction l as [|m l IH]; [reflexivity | exact IH]. Qed.

Lemma show_conversation_quiet l sh :
  exists evs,
    show_conversation py_repr (mkState l sh) = (Done tt, mkState l (sh ++ evs)%list) /\
    existsb is_remote_call evs = false.
Proof.
  unfold show_conversation, mbind, get_messages. cbn [messages].
  destruct l as [|m l'].
  - exists []. unfold ret. now rewrite app_nil_r.
  - rewrite emit_run, render_log. eexists. rewrite <- app_assoc.
    split; [reflexivity|]. cbn [app existsb is_remote_call is_transcription_call
      is_chat_call is_speech_call orb]. apply conversation_lines_quiet.
Qed.

Lemma sidebar_quiet k l sh :
  exists ev, sidebar k (mkState l sh) = (Done tt, mkState l (sh ++ [ev])%list) /\
             is_remote_call ev = false.
Proof.
  unfold sidebar.
  destruct (nonempty k && startswith k "sk-" && (40 <? String.length k)%nat);
    [| destruct (nonempty k)]; eexists; (split; [apply emit_run | reflexivity]).
Qed.

(** X12.  On the "Ask William" page a run with Clear pressed empties the
    messages and does not go on to the submit handler: the run is cut short
    at line 129, and even with Submit set no remote call is issued. *)
Theorem clear_wins_over_submit (client : Client) w l :
  options w = AskWilliam ->
  clear w = true ->
  (exists sg, fst (run (script py_repr client w) l) = Abort sg) /\
  messages_after (script py_repr client w) l = [] /\
  existsb is_remote_call (shown_by (script py_repr client w) l) = false.
Proof.
  intros Ho Hc.
  assert (R : exists evs,
            script py_repr client w (mkState l [])
            = (Abort (Control RerunException), mkState [] evs) /\
            existsb is_remote_call evs = false).
  { unfold script. rewrite Ho.
    unfold mbind at 1. destruct (sidebar_quiet (api_key w) l []) as (ev0 & -> & Q0).
    unfold mbind at 1. unfold ask_william.
    unfold mbind at 1. rewrite emit_run.
    unfold mbind at 1. rewrite emit_run.
    unfold mbind at 1. rewrite emit_run.
    unfold mbind at 1.
    match goal with
    | |- context [show_conversation py_repr (mkState l ?sh')] =>
        destruct (show_conversation_quiet l sh') as (evs & -> & Q)
    end.
    unfold mbind at 1. rewrite Hc.
    unfold on_clear, mbind, set_messages, st_rerun. cbn [messages shown].
    eexists. split; [reflexivity|].
    rewrite !existsb_app, Q. cbn [app existsb]. rewrite Q0. reflexivity. }
  destruct R as (evs & R & Q).
  unfold messages_after, shown_by, run. rewrite R. cbn [fst snd messages shown].
  split; [eauto | split; [reflexivity | exact Q]].
Qed.

(** X13.  A run of the script changes the messages only on the "Ask
    William" page and only when Clear or Submit is pressed. *)
Theorem conversation_changes_only_on_action l (i : interaction) :
  step py_repr l i <> l ->
  options (fst i) = AskWilliam /\ (clear (fst i) = true \/ submit (fst i) = true).
Proof.
  destruct i as [w client]. cbn [fst]. intros H.
  destruct (step_handlers py_repr l w client) as [evs E]. rewrite E in H.
  destruct (options w); try (now elim H).
  split; [reflexivity|].
  destruct (clear w); [now left|].
  destruct (submit w); [now right | now elim H].
Qed.

End PageProperties.

(* ================================================================== *)
(** * Further properties: the key *)
(* ================================================================== *)

(** X1.  The sidebar and the gate on the same key.  The sidebar calls the
    key good exactly when it starts with "sk-" and has more than 40
    characters, and asks for a key exactly when it is empty; the gate of the
    submit handler accepts exactly the keys that start with "sk-"; so every
    key the sidebar calls good is accepted. *)
Theorem sidebar_and_gate (k : string) (l : list Message) :
  (shown_by (sidebar k) l = [Success "API key looks good!"]
   <-> startswith k "sk-" = true /\ 40 < String.length k) /\
  (shown_by (sidebar k) l = [Info "Enter your API key to begin."] <-> k = "") /\
  key_accepted k = startswith k "sk-" /\
  (shown_by (sidebar k) l = [Success "API key looks good!"] -> key_accepted k = true).
Proof.
  assert (Hs : shown_by (sidebar k) l
              = if nonempty k && startswith k "sk-" && (40 <? String.length k)%nat
                then [Success "API key looks good!"]
                else if nonempty k then [Warning "Invalid API key format."]
                     else [Info "Enter your API key to begin."]).
  { unfold shown_by, run, sidebar.
    destruct (nonempty k && startswith k "sk-" && (40 <? String.length k)%nat);
      [| destruct (nonempty k)]; reflexivity. }
  assert (G : shown_by (sidebar k) l = [Success "API key looks good!"]
              <-> startswith k "sk-" = true /\ 40 < String.length k).
  { rewrite Hs. destruct k as [|c k'].
    - cbn. split; [discriminate | intros [H _]; discriminate H].
    - set (P := startswith (String c k') "sk-").
      set (n := String.length (String c k')).
      change (nonempty (String c k')) with true. cbn [andb].
      destruct P; cbn [andb].
      + destruct (40 <? n)%nat eqn:L.
        * apply Nat.ltb_lt in L. split; [intros _; now split | reflexivity].
        * apply Nat.ltb_ge in L. split; [discriminate | intros [_ H]; lia].
      + split; [discriminate | intros [H _]; discriminate H]. }
  split; [exact G|]. split; [| split].
  - rewrite Hs. destruct k as [|c k'].
    + cbn. split; reflexivity.
    + change (nonempty (String c k')) with true. cbn [andb].
      destruct (startswith (String c k') "sk-" && (40 <? String.length (String c k'))%nat);
        split; discriminate.
  - apply key_accepted_prefix.
  - intros H. rewrite key_accepted_prefix. now apply G.
Qed.

(* ================================================================== *)
(** * The further properties at sample inputs *)
(* ================================================================== *)

Lemma rejected_submission_does_nothing_witness :
  startswith (api_key (submission "" "Who is Hamlet?" (Some recording))) "sk-" = false /\
  run (on_submit plain_repr answering_client
         (submission "" "Who is Hamlet?" (Some recording)))
      [mkMessage system (PyStr SYSTEM_PROMPT)]
  = (Done tt,
     mkState [mkMessage system (PyStr SYSTEM_PROMPT)]
       [Warning "Enter a valid OpenAI API key in the sidebar."]).
Proof.
  split; [reflexivity|].
  apply (rejected_submission_does_nothing plain_repr answering_client). reflexivity.
Defined.

Lemma typed_submission_goes_straight_to_chat_witness :
  voice_file (submission "sk-test" " What is tragedy? " None) = None /\
  key_accepted (api_key (submission "sk-test" " What is tragedy? " None)) = true /\
  strip (user_question (submission "sk-test" " What is tragedy? " None)) <> "" /\
  exists tail,
    shown_by (on_submit plain_repr answering_client
                (submission "sk-test" " What is tragedy? " None)) []
    = ChatCall "gpt-4o-mini"
        [mkMessage system (PyStr SYSTEM_PROMPT);
         mkMessage user (PyStr "What is tragedy?")] :: tail /\
    existsb is_transcription_call tail = false.
Proof.
  assert (Hne : strip (user_question (submission "sk-test" " What is tragedy? " None)) <> "")
    by discriminate.
  split; [reflexivity|]. split; [reflexivity|]. split; [exact Hne|].
  exact (typed_submission_goes_straight_to_chat plain_repr answering_client
           (submission "sk-test" " What is tragedy? " None) [] eq_refl eq_refl Hne).
Defined.

Lemma blank_question_halts_witness :
  voice_file (submission "sk-test" "   " None) = None /\
  key_accepted (api_key (submission "sk-test" "   " None)) = true /\
  all_space (user_question (submission "sk-test" "   " None)) = true /\
  run (on_submit plain_repr answering_client (submission "sk-test" "   " None)) []
  = (Abort (Control StopException),
     mkState [mkMessage system (PyStr SYSTEM_PROMPT)]
       [Warning "Provide a typed question or upload a voice file."]).
Proof.
  split; [reflexivity|]. split; [reflexivity|]. split; [reflexivity|].
  exact (blank_question_halts plain_repr answering_client
           (submission "sk-test" "   " None) [] eq_refl eq_refl eq_refl).
Defined.

Lemma chat_failure_keeps_question_witness :
  In (ChatCall "gpt-4o-mini"
        [mkMessage system (PyStr SYSTEM_PROMPT); mkMessage user (PyStr "Who is Hamlet?")])
     (shown_by (on_submit plain_repr silent_client
                  (submission "sk-test" "Who is Hamlet?" None)) []) /\
  chat_completions_create silent_client
    [mkMessage system (PyStr SYSTEM_PROMPT); mkMessage user (PyStr "Who is Hamlet?")]
  = Raise (api_error "Connection error.") /\
  messages_after (on_submit plain_repr silent_client
                    (submission "sk-test" "Who is Hamlet?" None)) []
  = [mkMessage system (PyStr SYSTEM_PROMPT); mkMessage user (PyStr "Who is Hamlet?")].
Proof.
  assert (Hin : In (ChatCall "gpt-4o-mini"
                      [mkMessage system (PyStr SYSTEM_PROMPT);
                       mkMessage user (PyStr "Who is Hamlet?")])
                   (shown_by (on_submit plain_repr silent_client
                                (submission "sk-test" "Who is Hamlet?" None)) []))
    by (left; reflexivity).
  split; [exact Hin|]. split; [reflexivity|].
  exact (proj1 (proj2 (chat_failure_keeps_question plain_repr silent_client
                         (submission "sk-test" "Who is Hamlet?" None) [] _ _
                         (api_error "Connection error.") Hin eq_refl))).
Defined.

Lemma chat_history_is_well_formed_witness :
  conversation_invariant
    [mkMessage system (PyStr SYSTEM_PROMPT);
     mkMessage user (PyStr "Who is Hamlet?");
     mkMessage assistant (PyStr "The Prince of Denmark.")] /\
  exists first middle q,
    [mkMessage system (PyStr SYSTEM_PROMPT);
     mkMessage user (PyStr "Who is Hamlet?");
     mkMessage assistant (PyStr "The Prince of Denmark.");
     mkMessage user (PyStr "And Ophelia?")]
    = (first :: middle ++ [mkMessage user q])%list /\
    is_system first = true /\
    existsb is_system middle = false /\
    truthy q = true.
Proof.
  assert (Hinv : conversation_invariant
            [mkMessage system (PyStr SYSTEM_PROMPT);
             mkMessage user (PyStr "Who is Hamlet?");
             mkMessage assistant (PyStr "The Prince of Denmark.")])
    by (apply conversation_invariant_test; reflexivity).
  split; [exact Hinv|].
  apply (chat_history_is_well_formed plain_repr answering_client
           (submission "sk-test" "And Ophelia?" None)
           [mkMessage system (PyStr SYSTEM_PROMPT);
            mkMessage user (PyStr "Who is Hamlet?");
            mkMessage assistant (PyStr "The Prince of Denmark.")]
           "gpt-4o-mini" _ Hinv).
  left. reflexivity.
Defined.

Lemma clear_wins_over_submit_witness :
  options (mkWidgets "sk-test" AskWilliam "Who is Hamlet?" None
             "Dramatic Stage Voice" true true) = AskWilliam /\
  clear (mkWidgets "sk-test" AskWilliam "Who is Hamlet?" None
           "Dramatic Stage Voice" true true) = true /\
  messages_after
    (script plain_repr answering_client
       (mkWidgets "sk-test" AskWilliam "Who is Hamlet?" None
          "Dramatic Stage Voice" true true))
    [mkMessage system (PyStr SYSTEM_PROMPT); mkMessage user (PyStr "Who is Hamlet?")]
  = [].
Proof.
  split; [reflexivity|]. split; [reflexivity|].
  exact (proj1 (proj2 (clear_wins_over_submit plain_repr answering_client
                         (mkWidgets "sk-test" AskWilliam "Who is Hamlet?" None
                            "Dramatic Stage Voice" true true)
                         [mkMessage system (PyStr SYSTEM_PROMPT);
                          mkMessage user (PyStr "Who is Hamlet?")]
                         eq_refl eq_refl))).
Defined.

Lemma conversation_changes_only_on_action_witness :
  step plain_repr [] (submission "sk-test" "Who is Hamlet?" None, answering_client) <> [] /\
  options (fst (submission "sk-test" "Who is Hamlet?" None, answering_client))
  = AskWilliam /\
  (clear (fst (submission "sk-test" "Who is Hamlet?" None, answering_client)) = true \/
   submit (fst (submission "sk-test" "Who is Hamlet?" None, answering_client)) = true).
Proof.
  assert (H : step plain_repr []
                (submission "sk-test" "Who is Hamlet?" None, answering_client) <> [])
    by (intros E; vm_compute in E; discriminate E).
  split; [exact H|].
  exact (conversation_changes_only_on_action plain_repr []
           (submission "sk-test" "Who is Hamlet?" None, answering_client) H).
Defined.

(* ================================================================== *)
(** * Further properties: settling the question *)
(* ================================================================== *)

Section QuestionProperties.

Variable py_repr : value -> string.
Variable client : Client.

(** X17.  Settling the question (lines 142-168) never raises and never
    halts, whatever the transcription call does, and leaves the messages
    untouched; the question it gives is a truthy text extracted from the
    response of a transcription call that returned, or else the stripped
    typed text; and it issues neither the chat nor the speech call. *)
Theorem transcription_is_never_fatal w l :
  exists q evs,
    run (determine_final_question py_repr client w) l = (Done q, mkState l evs) /\
    existsb is_chat_call evs = false /\
    existsb is_speech_call evs = false /\
    (q = PyStr (strip (user_question w)) \/
     (truthy q = true /\
      exists f t, voice_file w = Some f /\
                  transcriptions_create client f = Val t /\
                  safe_get_transcription_text t = Val q)).
Proof.
  unfold run, determine_final_question.
  destruct (voice_file w) as [f|].
  - destruct (transcriptions_create client f) as [t|e] eqn:Ht.
    + destruct (safe_get_transcription_text_total t) as [v Hv].
      destruct (truthy v) eqn:Tv.
      * rewrite (transcribe_text py_repr client _ _ t v _ _ Ht Hv Tv).
        eexists _, _. split; [reflexivity|]. repeat split.
        right. split; [exact Tv|]. now exists f, t.
      * rewrite (transcribe_no_text py_repr client _ _ t v _ _ Ht Hv Tv).
        eexists _, _. split; [reflexivity|]. repeat split. now left.
    + rewrite (transcribe_raise py_repr client _ _ e _ _ Ht).
      eexists _, _. split; [reflexivity|]. repeat split. now left.
  - eexists _, _. split; [reflexivity|]. repeat split. now left.
Qed.

End QuestionProperties.

(* ================================================================== *)
(** * The order of the strategies at sample responses *)
(* ================================================================== *)

(** The attribute wins over the key on the same message. *)
Example assistant_text_attribute_before_key :
  safe_get_assistant_text plain_repr
    (completion_of
       (PyObject "Choice" [("message", two_faced_message "by attribute" "by key")]))
  = Val (PyStr "by attribute").
Proof. reflexivity. Qed.

(** The key on [choice.message] wins over [choice["message"]]. *)
Example assistant_text_message_key_before_choice_key :
  safe_get_assistant_text plain_repr
    (completion_of (two_faced_choice "by message key" "by choice key"))
  = Val (PyStr "by message key").
Proof. reflexivity. Qed.

(** C5 as stated fails: all three accesses fail on a response without
    attributes, and when [str] of it raises, the function raises. *)
Lemma unguarded_str_raises :
  raises (py_getattr opaque_response "choices") /\
  str_of_opaque opaque_response
  = Raise (Exn TypeError "__str__ returned non-string (type NoneType)") /\
  safe_get_assistant_text_with plain_repr str_of_opaque opaque_response
  = Raise (Exn TypeError "__str__ returned non-string (type NoneType)") /\
  ~ (exists v,
       safe_get_assistant_text_with plain_repr str_of_opaque opaque_response = Val v).
Proof.
  split; [eexists; reflexivity|]. split; [reflexivity|]. split; [reflexivity|].
  intros [v H]. discriminate H.
Qed.
